(** * ClickUp to BigQuery sync: a shallow embedding of
      [src/clickup_to_bigquery/main.py] and the properties of its
      extract / flatten / load path.

    The Python values that [json.loads] produces are an inductive type, the
    dictionaries are [gmap]s keyed by strings, exceptions are an explicit
    error type, and the effects of the program (HTTP requests, warehouse
    calls, log lines) are appended to an event trace that is threaded
    through a small state-and-error monad. *)

From Stdlib Require Import ZArith SpecFloat.
From stdpp Require Import base gmap strings list pretty.

Set Warnings "-register-all".

(** ** Python values *)

Inductive pyval :=
| PyNone
| PyBool (b : bool)
| PyInt (n : Z)
| PyFloat (f : spec_float)
| PyStr (s : string)
| PyList (xs : list pyval)
| PyDict (d : gmap string pyval).

Inductive pytype := TNone | TBool | TInt | TFloat | TStr | TList | TDict.

Definition type_of (v : pyval) : pytype :=
  match v with
  | PyNone => TNone
  | PyBool _ => TBool
  | PyInt _ => TInt
  | PyFloat _ => TFloat
  | PyStr _ => TStr
  | PyList _ => TList
  | PyDict _ => TDict
  end.

(** The exceptions the program can meet.  All of them derive from
    [Exception], so the [except Exception] of [sync_data] catches each one.
    [Raised] stands for what the libraries raise: [requests] on a failed
    call, [response.json()] on a body that is not JSON, the BigQuery client
    on a failed call or job. *)
Inductive exn :=
| KeyError (k : string)
| TypeError (t : pytype)
| AttributeError (t : pytype) (attr : string)
| Raised (msg : string).

Inductive result (A : Type) :=
| Ok (a : A)
| Err (e : exn).
Arguments Ok {A} a.
Arguments Err {A} e.

Definition rbind {A B} (r : result A) (k : A -> result B) : result B :=
  match r with
  | Ok a => k a
  | Err e => Err e
  end.

Notation "'let?' x ':=' c 'in' k" := (rbind c (fun x => k))
  (at level 10, x name, c at level 100, k at level 200).

(** [v[k]] with a string key. *)
Definition py_getitem (v : pyval) (k : string) : result pyval :=
  match v with
  | PyDict d =>
      match d !! k with
      | Some x => Ok x
      | None => Err (KeyError k)
      end
  | _ => Err (TypeError (type_of v))
  end.

(** [v.get(k, default)]: only a dict has the method. *)
Definition py_get (v : pyval) (k : string) (default : pyval) : result pyval :=
  match v with
  | PyDict d => Ok (from_option id default (d !! k))
  | _ => Err (AttributeError (type_of v) "get")
  end.

(** [v[k] = x] with a string key. *)
Definition py_setitem (v : pyval) (k : string) (x : pyval) : result pyval :=
  match v with
  | PyDict d => Ok (PyDict (<[k := x]> d))
  | _ => Err (TypeError (type_of v))
  end.

(** The elements a [for] loop visits: the items of a list, the characters
    of a string, the keys of a dict (a [gmap] has no insertion order; the
    keys come in the order of [map_to_list]).  Other values are not
    iterable. *)
Definition py_iter (v : pyval) : result (list pyval) :=
  match v with
  | PyList xs => Ok xs
  | PyStr s => Ok ((fun c => PyStr (String c EmptyString)) <$> String.list_ascii_of_string s)
  | PyDict d => Ok ((fun kv => PyStr kv.1) <$> map_to_list d)
  | _ => Err (TypeError (type_of v))
  end.

(** [v == s] for a string literal [s]. *)
Definition py_eq_str (v : pyval) (s : string) : bool :=
  match v with
  | PyStr s' => bool_decide (s' = s)
  | _ => false
  end.

(** Left-to-right loop over a list with an accumulator, stopping at the
    first exception. *)
Fixpoint rfold {A B} (f : A -> B -> result A) (a : A) (xs : list B) : result A :=
  match xs with
  | [] => Ok a
  | x :: xs' => let? a' := f a x in rfold f a' xs'
  end.

(** ** The outside world: events, state, and the monad of the program *)

Inductive level := INFO | ERROR.

Inductive write_disposition := WRITE_TRUNCATE | WRITE_APPEND | WRITE_EMPTY.

Record SchemaField := mkSchemaField { sf_name : string; sf_type : string }.

(** A load job as [load_table_from_json] returns it. *)
Record load_job := mkLoadJob {
  job_rows : list pyval;
  job_dataset : string;
  job_table : string;
  job_disposition : write_disposition
}.

Inductive bq_op :=
| CreateTable (dataset table : string) (schema : list SchemaField) (exists_ok : bool)
| LoadTableFromJson (job : load_job)
| JobResult (job : load_job).

Inductive event :=
| EvHttp (url : string) (resp : result pyval)
| EvBq (op : bq_op) (failure : option exn)
| EvLog (lvl : level) (msg : string).

(** [events] is the trace of the run so far, oldest first.  [tasks_rows] is
    the content of the destination table [clickup_data.tasks]: [None] while
    the table does not exist. *)
Record state := mkState {
  events : list event;
  tasks_rows : option (list pyval)
}.

Definition record (e : event) (s : state) : state :=
  mkState (events s ++ [e]) (tasks_rows s).

Definition M (A : Type) : Type := state -> result A * state.

Definition mret {A} (a : A) : M A := fun s => (Ok a, s).

Definition mbind {A B} (c : M A) (k : A -> M B) : M B := fun s =>
  match c s with
  | (Ok a, s') => k a s'
  | (Err e, s') => (Err e, s')
  end.

Definition lift {A} (r : result A) : M A := fun s => (r, s).

Notation "'let*' x ':=' c 'in' k" := (mbind c (fun x => k))
  (at level 10, x name, c at level 100, k at level 200).
Notation "c1 ';;;' c2" := (mbind c1 (fun _ => c2))
  (at level 100, c2 at level 200, right associativity).

Fixpoint mfold {A B} (f : A -> B -> M A) (a : A) (xs : list B) : M A :=
  match xs with
  | [] => mret a
  | x :: xs' => let* a' := f a x in mfold f a' xs'
  end.

(** What a completed load job leaves in the table: [WRITE_TRUNCATE]
    replaces the rows, [WRITE_APPEND] adds to them, [WRITE_EMPTY] writes
    into an empty table only. *)
Definition load_rows (disp : write_disposition) (old : option (list pyval))
    (new : list pyval) : option (list pyval) :=
  match disp with
  | WRITE_TRUNCATE => Some new
  | WRITE_APPEND => Some (default [] old ++ new)
  | WRITE_EMPTY =>
      match old with
      | Some (r :: rs) => Some (r :: rs)
      | _ => Some new
      end
  end.

(** ** The program *)

(** What the run depends on and the source does not fix. *)
Record world := mkWorld {
  (** [CLICKUP_WORKSPACE_ID] as [os.environ.get] returns it: a string, or
      [None] when the variable is not set. *)
  workspace_id : option string;
  (** The text Python prints for a float, a list or a dict inside an
      f-string, and the text of [str(e)] for an exception. *)
  py_repr : pyval -> string;
  str_exn : exn -> string;
  (** The source API: what [requests.get(url, headers=self.headers).json()]
      gives for [url] after the events so far; [Err] when the request or
      the decoding of its body raises.  The headers are the same on every
      call. *)
  http_get : list event -> string -> result pyval;
  (** The warehouse: the exception a client call raises after the events so
      far, if it raises one. *)
  bq_error : list event -> bq_op -> option exn
}.

Section ClickUpToBigQuery.

Variable w : world.

(** [str(v)], as an f-string formats a value. *)
Definition py_str (v : pyval) : string :=
  match v with
  | PyStr s => s
  | PyNone => "None"
  | PyBool true => "True"
  | PyBool false => "False"
  | PyInt n => pretty n
  | _ => py_repr w v
  end.

Definition env_value (o : option string) : pyval :=
  match o with
  | Some s => PyStr s
  | None => PyNone
  end.

Definition base_url : string := "https://api.clickup.com/api/v2".

Definition get_json (url : string) : M pyval := fun s =>
  let r := http_get w (events s) url in
  (r, record (EvHttp url r) s).

Definition log (lvl : level) (msg : string) : M unit := fun s =>
  (Ok (), record (EvLog lvl msg) s).

(** A client call that changes the table to [rows'] when it does not
    raise. *)
Definition bq_call (op : bq_op) (rows' : option (list pyval)) : M unit := fun s =>
  match bq_error w (events s) op with
  | Some e => (Err e, record (EvBq op (Some e)) s)
  | None => (Ok (), mkState (events s ++ [EvBq op None]) rows')
  end.

(** [client.create_table(table, exists_ok=True)] on [clickup_data.tasks]:
    a table that is there is left as it is, a new one starts empty. *)
Definition create_table (schema : list SchemaField) : M unit := fun s =>
  bq_call (CreateTable "clickup_data" "tasks" schema true)
          (Some (default [] (tasks_rows s))) s.

Definition load_table_from_json (rows : list pyval) (disp : write_disposition)
    : M load_job := fun s =>
  let job := mkLoadJob rows "clickup_data" "tasks" disp in
  (let* _ := bq_call (LoadTableFromJson job) (tasks_rows s) in mret job) s.

(** [job.result()]: returns once the job is done. *)
Definition job_result (job : load_job) : M unit := fun s =>
  bq_call (JobResult job)
          (load_rows (job_disposition job) (tasks_rows s) (job_rows job)) s.

Definition fetch_custom_fields (workspace_id : pyval) : M pyval :=
  let url := base_url +:+ "/workspace/" +:+ py_str workspace_id +:+ "/custom_fields" in
  let* response := get_json url in
  lift (py_get response "custom_fields" (PyList [])).

Definition fetch_custom_task_types (workspace_id : pyval) : M pyval :=
  let url := base_url +:+ "/workspace/" +:+ py_str workspace_id +:+ "/custom_task_types" in
  let* response := get_json url in
  lift (py_get response "custom_task_types" (PyList [])).

(** Body of the loop over [custom_fields] in [fetch_tasks]: the right-hand
    side [field.get('value')] is evaluated before the key. *)
Definition flatten_field (task field : pyval) : result pyval :=
  let? value := py_get field "value" PyNone in
  let? fid := py_getitem field "id" in
  py_setitem task ("custom_field_" +:+ py_str fid) value.

(** Body of the loop over [list_tasks] in [fetch_tasks], up to the
    [append]. *)
Definition flatten_task (space list_obj task : pyval) : result pyval :=
  let? custom_fields := py_get task "custom_fields" (PyList []) in
  let? fields := py_iter custom_fields in
  let? task := rfold flatten_field task fields in
  let? sid := py_getitem space "id" in
  let? task := py_setitem task "space_id" sid in
  let? lid := py_getitem list_obj "id" in
  py_setitem task "list_id" lid.

(** Body of the loop over [lists]. *)
Definition fetch_list_tasks (space : pyval) (tasks : list pyval) (list_obj : pyval)
    : M (list pyval) :=
  let* lid := lift (py_getitem list_obj "id") in
  let tasks_url := base_url +:+ "/list/" +:+ py_str lid +:+ "/task" in
  let* response := get_json tasks_url in
  let* list_tasks := lift (py_get response "tasks" (PyList [])) in
  let* list_tasks := lift (py_iter list_tasks) in
  lift (rfold (fun tasks task =>
                 let? task := flatten_task space list_obj task in
                 Ok (tasks ++ [task]))
              tasks list_tasks).

(** Body of the loop over [spaces]. *)
Definition fetch_space_tasks (tasks : list pyval) (space : pyval) : M (list pyval) :=
  let* sid := lift (py_getitem space "id") in
  let lists_url := base_url +:+ "/space/" +:+ py_str sid +:+ "/list" in
  let* response := get_json lists_url in
  let* lists := lift (py_get response "lists" (PyList [])) in
  let* lists := lift (py_iter lists) in
  mfold (fetch_list_tasks space) tasks lists.

Definition fetch_tasks (workspace_id : pyval) : M (list pyval) :=
  let spaces_url := base_url +:+ "/team/" +:+ py_str workspace_id +:+ "/space" in
  let* response := get_json spaces_url in
  let* spaces := lift (py_get response "spaces" (PyList [])) in
  let* spaces := lift (py_iter spaces) in
  mfold fetch_space_tasks [] spaces.

Definition tasks_schema : list SchemaField :=
  [ mkSchemaField "id" "STRING";
    mkSchemaField "name" "STRING";
    mkSchemaField "description" "STRING";
    mkSchemaField "status" "STRING";
    mkSchemaField "priority" "INTEGER";
    mkSchemaField "due_date" "TIMESTAMP";
    mkSchemaField "space_id" "STRING";
    mkSchemaField "list_id" "STRING";
    mkSchemaField "created_at" "TIMESTAMP";
    mkSchemaField "updated_at" "TIMESTAMP" ].

(** The [if]/[elif] on [field['type']] in [create_tables_if_not_exist]. *)
Definition field_type (field : pyval) : result string :=
  let? ty := py_getitem field "type" in
  if py_eq_str ty "number" then Ok "FLOAT"
  else
    let? ty := py_getitem field "type" in
    if py_eq_str ty "date" then Ok "TIMESTAMP" else Ok "STRING".

(** Body of the loop over the custom-field definitions. *)
Definition add_custom_field (schema : list SchemaField) (field : pyval)
    : result (list SchemaField) :=
  let? field_type := field_type field in
  let? fid := py_getitem field "id" in
  Ok (schema ++ [mkSchemaField ("custom_field_" +:+ py_str fid) field_type]).

Definition create_tables_if_not_exist : M unit :=
  let* custom_fields := fetch_custom_fields (env_value (workspace_id w)) in
  let* custom_fields := lift (py_iter custom_fields) in
  let* schema := lift (rfold add_custom_field tasks_schema custom_fields) in
  create_table schema.

(** The [if tasks:] block of [sync_data]. *)
Definition load_tasks (tasks : list pyval) : M unit :=
  match tasks with
  | [] => mret ()
  | _ :: _ =>
      let* job := load_table_from_json tasks WRITE_TRUNCATE in
      job_result job ;;;
      log INFO ("Loaded " +:+ pretty (length tasks) +:+ " tasks to BigQuery")
  end.

(** The body of the [try] in [sync_data]. *)
Definition sync_body : M unit :=
  log INFO "Starting ClickUp to BigQuery sync" ;;;
  create_tables_if_not_exist ;;;
  let* tasks := fetch_tasks (env_value (workspace_id w)) in
  load_tasks tasks ;;;
  log INFO "Sync completed successfully".

Definition sync_data : M unit := fun s =>
  match sync_body s with
  | (Ok u, s') => (Ok u, s')
  | (Err e, s') =>
      (let* _ := log ERROR ("Error during sync: " +:+ str_exn w e) in lift (Err e)) s'
  end.

End ClickUpToBigQuery.

(** ** Derived notions used to state the properties *)

(** The key a custom-field entry is flattened under, and the value stored
    there: the two expressions of the assignment in [flatten_field]. *)
Definition field_key (w : world) (field : pyval) : result string :=
  let? fid := py_getitem field "id" in
  Ok ("custom_field_" +:+ py_str w fid).

Definition field_value (field : pyval) : result pyval :=
  py_get field "value" PyNone.

(** One assignment [task[k] = v], and what [flatten_field] assigns for an
    entry. *)
Definition assign (m : gmap string pyval) (kv : string * pyval) : gmap string pyval :=
  <[kv.1 := kv.2]> m.

Definition assigned (w : world) (field : pyval) (kv : string * pyval) : Prop :=
  field_key w field = Ok kv.1 /\ field_value field = Ok kv.2.

(** The custom-fields collection of a task, as the loop of [flatten_task]
    visits it. *)
Definition entries (task : pyval) : result (list pyval) :=
  let? custom_fields := py_get task "custom_fields" (PyList []) in
  py_iter custom_fields.

(** What a loop visits for [response.get(key, [])]: the two steps every
    stage takes on an answer before its loop. *)
Definition collection (response : pyval) (key : string) : result (list pyval) :=
  let? v := py_get response key (PyList []) in
  py_iter v.

(** A definition that declares a kind. *)
Definition has_type (field : pyval) : Prop :=
  exists ty, py_getitem field "type" = Ok ty.

(** [x] is an element of the collection a response holds under [key]. *)
Definition listed (response : pyval) (key : string) (x : pyval) : Prop :=
  exists v xs, py_get response key (PyList []) = Ok v /\ py_iter v = Ok xs /\ x ∈ xs.

Definition spaces_url (w : world) (wid : pyval) : string :=
  base_url +:+ "/team/" +:+ py_str w wid +:+ "/space".
Definition lists_url (w : world) (sid : pyval) : string :=
  base_url +:+ "/space/" +:+ py_str w sid +:+ "/list".
Definition tasks_url (w : world) (lid : pyval) : string :=
  base_url +:+ "/list/" +:+ py_str w lid +:+ "/task".
Definition custom_fields_url (w : world) (wid : pyval) : string :=
  base_url +:+ "/workspace/" +:+ py_str w wid +:+ "/custom_fields".
Definition custom_task_types_url (w : world) (wid : pyval) : string :=
  base_url +:+ "/workspace/" +:+ py_str w wid +:+ "/custom_task_types".

(** Within the trace [evs], the task [src] was listed by the tasks request
    of [list_obj], which was listed by the lists request of [space]. *)
Definition fetched_under (w : world) (evs : list event)
    (space list_obj src : pyval) : Prop :=
  exists sid lid lists_resp tasks_resp,
    py_getitem space "id" = Ok sid /\
    EvHttp (lists_url w sid) (Ok lists_resp) ∈ evs /\
    listed lists_resp "lists" list_obj /\
    py_getitem list_obj "id" = Ok lid /\
    EvHttp (tasks_url w lid) (Ok tasks_resp) ∈ evs /\
    listed tasks_resp "tasks" src.

(** The column [add_custom_field] derives from a definition. *)
Definition column_of (w : world) (field : pyval) (col : SchemaField) : Prop :=
  exists ty fid,
    py_getitem field "type" = Ok ty /\
    py_getitem field "id" = Ok fid /\
    sf_name col = "custom_field_" +:+ py_str w fid /\
    (ty = PyStr "number" -> sf_type col = "FLOAT") /\
    (ty = PyStr "date" -> sf_type col = "TIMESTAMP") /\
    (ty <> PyStr "number" -> ty <> PyStr "date" -> sf_type col = "STRING").

(** The requests of the extractor. *)
Definition extractor_request (e : event) : Prop :=
  exists path r, e = EvHttp (base_url +:+ path) r /\
    exists x, path = "/team/" +:+ x +:+ "/space" \/
              path = "/space/" +:+ x +:+ "/list" \/
              path = "/list/" +:+ x +:+ "/task".

(** The exception an event reports, if the call it records raised one. *)
Definition failure_of (e : event) : option exn :=
  match e with
  | EvHttp _ (Err x) => Some x
  | EvBq _ (Some x) => Some x
  | _ => None
  end.

Definition is_bq (e : event) : bool :=
  match e with
  | EvBq _ _ => true
  | _ => false
  end.

Definition is_load (e : event) : bool :=
  match e with
  | EvBq (LoadTableFromJson _) _ => true
  | EvBq (JobResult _) _ => true
  | _ => false
  end.

(** A call that raised is the last event of the trace, and what it raised
    is the result: nothing caught it and nothing ran after it. *)
Definition unhandled {A} (r : result A) (evs : list event) : Prop :=
  forall pre ev post x,
    evs = pre ++ ev :: post -> failure_of ev = Some x -> post = [] /\ r = Err x.

(** A run from [s] to [s'] with result [r]: it appended events that satisfy
    [P], no failed call was handled, and the table is as before unless a
    warehouse call was made. *)
Definition run_of {A} (P : event -> Prop) (s : state) (r : result A) (s' : state) : Prop :=
  exists evs,
    events s' = events s ++ evs /\
    Forall P evs /\
    unhandled r evs /\
    (Forall (fun e => is_bq e = false) evs -> tasks_rows s' = tasks_rows s).

Definition traced {A} (P : event -> Prop) (c : M A) : Prop :=
  forall s r s', c s = (r, s') -> run_of P s r s'.

(** [self.workspace_id], and the states after the three log lines of
    [sync_data] other than the count. *)
Definition self_workspace_id (w : world) : pyval := env_value (workspace_id w).

Definition started (s : state) : state :=
  record (EvLog INFO "Starting ClickUp to BigQuery sync") s.
Definition failed (w : world) (e : exn) (s : state) : state :=
  record (EvLog ERROR ("Error during sync: " +:+ str_exn w e)) s.
Definition completed (s : state) : state :=
  record (EvLog INFO "Sync completed successfully") s.

(** The load job [sync_data] submits for [tasks]. *)
Definition load_job_of (tasks : list pyval) : load_job :=
  mkLoadJob tasks "clickup_data" "tasks" WRITE_TRUNCATE.

(** The events a sync run can append. *)
Definition sync_event (w : world) (e : event) : Prop :=
  (exists lvl msg, e = EvLog lvl msg) \/
  (exists op f, e = EvBq op f) \/
  (exists r, e = EvHttp (custom_fields_url w (self_workspace_id w)) r) \/
  extractor_request e.

(** The URLs a trace requested, in order. *)
Definition requested_urls (evs : list event) : list string :=
  omap (fun e => match e with EvHttp url _ => Some url | _ => None end) evs.

(** The log lines of a trace. *)
Definition log_lines (evs : list event) : list (level * string) :=
  omap (fun e => match e with EvLog l m => Some (l, m) | _ => None end) evs.

(** ** Example worlds *)

Definition type_name (t : pytype) : string :=
  match t with
  | TNone => "NoneType" | TBool => "bool" | TInt => "int" | TFloat => "float"
  | TStr => "str" | TList => "list" | TDict => "dict"
  end.

Definition demo_str_exn (e : exn) : string :=
  match e with
  | KeyError k => "'" +:+ k +:+ "'"
  | TypeError t => "'" +:+ type_name t +:+ "' object does not support this operation"
  | AttributeError t attr =>
      "'" +:+ type_name t +:+ "' object has no attribute '" +:+ attr +:+ "'"
  | Raised msg => msg
  end.

(** A source API that answers by URL from a fixed table and fails on any
    other URL; a warehouse that never fails. *)
Definition demo_world (routes : list (string * pyval)) : world :=
  mkWorld (Some "W1") (fun _ => "?") demo_str_exn
          (fun _ url =>
             match list_find (fun kv => bool_decide (kv.1 = url)) routes with
             | Some (_, kv) => Ok kv.2
             | None => Err (Raised "404 Client Error")
             end)
          (fun _ _ => None).

Definition dict (kvs : list (string * pyval)) : pyval :=
  PyDict (list_to_map kvs).

Definition s_init : state := mkState [] None.

(** One space [S1] with one list [L1]. *)
Definition routes_S1_L1 (fields tasks : pyval) : list (string * pyval) :=
  [ ("https://api.clickup.com/api/v2/workspace/W1/custom_fields",
      dict [("custom_fields", fields)]);
    ("https://api.clickup.com/api/v2/team/W1/space",
      dict [("spaces", PyList [dict [("id", PyStr "S1")]])]);
    ("https://api.clickup.com/api/v2/space/S1/list",
      dict [("lists", PyList [dict [("id", PyStr "L1")]])]);
    ("https://api.clickup.com/api/v2/list/L1/task",
      dict [("tasks", tasks)]) ].

(** The definition [F1] has no declared kind. *)
Definition world_untyped_field : world :=
  demo_world (routes_S1_L1 (PyList [dict [("id", PyStr "F1")]]) (PyList [])).

(** The task [T1] carries two entries for the field [F]. *)
Definition entry_F_1 : pyval := dict [("id", PyStr "F"); ("value", PyInt 1)].
Definition entry_F_2 : pyval := dict [("id", PyStr "F"); ("value", PyInt 2)].
Definition task_two_entries : pyval :=
  dict [("id", PyStr "T1"); ("custom_fields", PyList [entry_F_1; entry_F_2])].
Definition row_two_entries : pyval :=
  dict [("id", PyStr "T1"); ("custom_fields", PyList [entry_F_1; entry_F_2]);
        ("custom_field_F", PyInt 2);
        ("space_id", PyStr "S1"); ("list_id", PyStr "L1")].
Definition world_two_entries : world :=
  demo_world (routes_S1_L1 (PyList []) (PyList [task_two_entries])).

(** The second end-to-end scenario of the design: [T1] without custom
    fields, [T2] with [F1 = 4.5], one definition [F1 : number]. *)
Definition four_and_a_half : pyval := PyFloat (S754_finite false 9 (-1)).
Definition task_T1 : pyval := dict [("id", PyStr "T1"); ("name", PyStr "first")].
Definition task_T2 : pyval :=
  dict [("id", PyStr "T2");
        ("space_id", PyStr "stale");
        ("list_id", PyStr "stale");
        ("custom_field_F1", PyStr "stale");
        ("custom_fields",
          PyList [dict [("id", PyStr "F1"); ("type", PyStr "number");
                        ("value", four_and_a_half)]])].
(** The records the extractor makes of [task_T1] and [task_T2]. *)
Definition row_T1 : pyval :=
  dict [("id", PyStr "T1"); ("name", PyStr "first");
        ("space_id", PyStr "S1"); ("list_id", PyStr "L1")].
Definition row_T2 : pyval :=
  dict [("id", PyStr "T2");
        ("space_id", PyStr "S1");
        ("list_id", PyStr "L1");
        ("custom_field_F1", four_and_a_half);
        ("custom_fields",
          PyList [dict [("id", PyStr "F1"); ("type", PyStr "number");
                        ("value", four_and_a_half)]])].
Definition world_two_tasks : world :=
  demo_world (routes_S1_L1
                (PyList [dict [("id", PyStr "F1"); ("type", PyStr "number")]])
                (PyList [task_T1; task_T2])).

(** A workspace without spaces, and one whose answers lack the collection
    keys. *)
Definition world_no_spaces : world :=
  demo_world
    [ ("https://api.clickup.com/api/v2/workspace/W1/custom_fields",
        dict [("custom_fields", PyList [])]);
      ("https://api.clickup.com/api/v2/team/W1/space", dict [("spaces", PyList [])]) ].
Definition world_no_keys : world :=
  demo_world
    [ ("https://api.clickup.com/api/v2/workspace/W1/custom_fields", dict []);
      ("https://api.clickup.com/api/v2/team/W1/space", dict []);
      ("https://api.clickup.com/api/v2/space/S1/list", dict []);
      ("https://api.clickup.com/api/v2/list/L1/task", dict []) ].

(** The lists request of [S1] is answered by a JSON array instead of an
    object. *)
Definition world_bad_lists : world :=
  demo_world
    [ ("https://api.clickup.com/api/v2/workspace/W1/custom_fields",
        dict [("custom_fields", PyList [])]);
      ("https://api.clickup.com/api/v2/team/W1/space",
        dict [("spaces", PyList [dict [("id", PyStr "S1")]])]);
      ("https://api.clickup.com/api/v2/space/S1/list", PyList []) ].

(** ** Construction of the client object *)

(** The attributes [__init__] sets, apart from the BigQuery client. *)
Record config := mkConfig {
  cfg_api_token : option string;
  cfg_workspace_id : option string;
  cfg_base_url : string;
  cfg_headers : gmap string pyval
}.

(** [ClickUpToBigQuery.__init__] over the process environment; [client] is
    the exception [bigquery.Client()] raises, if it raises one.  A variable
    that is not set reads as [None]. *)
Definition init (environ : gmap string string) (client : option exn) : result config :=
  let api_token := environ !! "CLICKUP_API_TOKEN" in
  let workspace_id := environ !! "CLICKUP_WORKSPACE_ID" in
  match client with
  | Some e => Err e
  | None =>
      Ok (mkConfig api_token workspace_id base_url
            (<["Authorization" := env_value api_token]>
               (<["Content-Type" := PyStr "application/json"]> ∅)))
  end.

(** The world of a client object, given the rest of the outside. *)
Definition world_of (cfg : config) (repr : pyval -> string) (strx : exn -> string)
    (http : list event -> string -> result pyval)
    (bq : list event -> bq_op -> option exn) : world :=
  mkWorld (cfg_workspace_id cfg) repr strx http bq.

(** ** Further notions *)

(** The events between the start line and the last line of a run: requests,
    warehouse calls, and the count line. *)
Definition body_event (e : event) : Prop :=
  match e with
  | EvLog lvl msg => lvl = INFO /\ exists n, msg = "Loaded " +:+ n +:+ " tasks to BigQuery"
  | _ => True
  end.

(** One pass of the loop over [lists], seen from outside: the request it
    made and the records it appended. *)
Definition list_pass (w : world) (space list_obj : pyval)
    (pass : event * list pyval) : Prop :=
  exists lid resp v srcs,
    py_getitem list_obj "id" = Ok lid /\
    pass.1 = EvHttp (tasks_url w lid) (Ok resp) /\
    py_get resp "tasks" (PyList []) = Ok v /\
    py_iter v = Ok srcs /\
    Forall2 (fun src t => flatten_task w space list_obj src = Ok t) srcs pass.2.

(** One pass of the loop over [spaces], seen from outside: the requests it
    made and the records it appended. *)
Definition space_pass (w : world) (space : pyval)
    (pass : list event * list pyval) : Prop :=
  exists sid resp v lists (passes : list (event * list pyval)),
    py_getitem space "id" = Ok sid /\
    py_get resp "lists" (PyList []) = Ok v /\
    py_iter v = Ok lists /\
    Forall2 (list_pass w space) lists passes /\
    pass.1 = EvHttp (lists_url w sid) (Ok resp) :: passes.*1 /\
    pass.2 = concat passes.*2.

(** A value that has the attribute ['id']. *)
Definition has_id (v : pyval) : Prop :=
  exists d, v = PyDict d /\ is_Some (d !! "id").

(** The first task of [L1] has a custom-field entry without ['id']; the
    second one is well formed. *)
Definition task_bad_entry : pyval :=
  dict [("id", PyStr "T0"); ("custom_fields", PyList [dict [("value", PyInt 1)]])].
Definition world_bad_task : world :=
  demo_world (routes_S1_L1 (PyList []) (PyList [task_bad_entry; task_T1])).

(** A warehouse that refuses every create call. *)
Definition world_create_fails : world :=
  mkWorld (Some "W1") (fun _ => "?") demo_str_exn
          (fun _ _ => Ok (dict [("custom_fields", PyList [])]))
          (fun _ op =>
             match op with
             | CreateTable _ _ _ _ => Some (Raised "403 Access Denied")
             | _ => None
             end).

(** Every load job fails when waited for. *)
Definition world_job_fails : world :=
  mkWorld (Some "W1") (fun _ => "?") demo_str_exn
          (http_get (demo_world
             (routes_S1_L1 (PyList []) (PyList [dict [("id", PyStr "T1")]]))))
          (fun _ op =>
             match op with
             | JobResult _ => Some (Raised "400 Provided Schema does not match")
             | _ => None
             end).

(** A workspace whose collections are [null]. *)
Definition world_null_collections : world :=
  demo_world
    [ ("https://api.clickup.com/api/v2/workspace/W1/custom_fields",
        dict [("custom_fields", PyNone)]);
      ("https://api.clickup.com/api/v2/team/W1/space", dict [("spaces", PyNone)]);
      ("https://api.clickup.com/api/v2/space/S1/list", dict [("lists", PyNone)]);
      ("https://api.clickup.com/api/v2/list/L1/task", dict [("tasks", PyNone)]) ].

(** ** Generic facts: the two monads, traces *)

Lemma rbind_Ok_inv {A B} (r : result A) (k : A -> result B) (b : B) :
  rbind r k = Ok b -> exists a, r = Ok a /\ k a = Ok b.
Proof. destruct r as [a|e]; simpl; [eauto | discriminate]. Qed.

Lemma mbind_inv {A B} (c : M A) (k : A -> M B) s r s' :
  mbind c k s = (r, s') ->
  (exists a s1, c s = (Ok a, s1) /\ k a s1 = (r, s')) \/
  (exists e, c s = (Err e, s') /\ r = Err e).
Proof.
  unfold mbind. destruct (c s) as [[a|e] s1]; intros H.
  - left. eauto.
  - right. exists e. by inversion H.
Qed.

Lemma mbind_Ok_inv {A B} (c : M A) (k : A -> M B) s b s' :
  mbind c k s = (Ok b, s') ->
  exists a s1, c s = (Ok a, s1) /\ k a s1 = (Ok b, s').
Proof.
  intros H. apply mbind_inv in H as [H|(e & _ & ?)]; [done | discriminate].
Qed.

Lemma lift_inv {A} (r r' : result A) s s' :
  lift r s = (r', s') -> r' = r /\ s' = s.
Proof. unfold lift. by inversion 1. Qed.

Lemma py_eq_str_true v s : py_eq_str v s = true <-> v = PyStr s.
Proof.
  destruct v; simpl; try (split; [discriminate | by inversion 1]).
  rewrite bool_decide_eq_true. split; [by intros -> | by inversion 1].
Qed.

Lemma py_eq_str_false v s : py_eq_str v s = false <-> v <> PyStr s.
Proof.
  rewrite <- py_eq_str_true. destruct (py_eq_str v s); split; try done.
Qed.

Lemma py_getitem_Ok_inv v k x :
  py_getitem v k = Ok x -> exists d, v = PyDict d /\ d !! k = Some x.
Proof.
  destruct v; simpl; try discriminate.
  destruct (d !! k) eqn:E; inversion 1; subst. eauto.
Qed.

Lemma py_get_Ok_inv v k dflt x :
  py_get v k dflt = Ok x ->
  exists d, v = PyDict d /\ x = from_option id dflt (d !! k).
Proof. destruct v; simpl; try discriminate. inversion 1. eauto. Qed.

Lemma py_setitem_Ok_inv v k x t :
  py_setitem v k x = Ok t -> exists d, v = PyDict d /\ t = PyDict (<[k := x]> d).
Proof. destruct v; simpl; try discriminate. inversion 1. eauto. Qed.

Lemma has_id_getitem v : has_id v <-> exists x, py_getitem v "id" = Ok x.
Proof.
  split.
  - intros (d & -> & [x Hx]). exists x. simpl. by rewrite Hx.
  - intros (x & Hx). apply py_getitem_Ok_inv in Hx as (d & -> & Hd).
    exists d. by rewrite Hd.
Qed.

Lemma unhandled_nil {A} (r : result A) : unhandled r [].
Proof. intros pre ev post x H. by destruct pre. Qed.

Lemma unhandled_clean {A} (r : result A) evs :
  Forall (fun e => failure_of e = None) evs -> unhandled r evs.
Proof.
  intros HF pre ev post x -> Hx.
  apply Forall_app in HF as [_ HF]. apply Forall_cons in HF as [HF _]. congruence.
Qed.

Lemma unhandled_Ok_clean {A} (a : A) evs :
  unhandled (Ok a) evs -> Forall (fun e => failure_of e = None) evs.
Proof.
  intros H. apply Forall_forall. intros ev Hin.
  apply list_elem_of_split in Hin as (pre & post & ->).
  destruct (failure_of ev) as [x|] eqn:E; [|done].
  by destruct (H pre ev post x eq_refl E) as [_ ?].
Qed.

Lemma unhandled_app {A B} (a : A) (r : result B) evs1 evs2 :
  unhandled (Ok a) evs1 -> unhandled r evs2 -> unhandled r (evs1 ++ evs2).
Proof.
  intros H1 H2 pre ev post x Heq Hx.
  apply unhandled_Ok_clean in H1.
  assert (Hin : ev ∈ evs1 ++ evs2).
  { rewrite Heq. apply elem_of_app. right. by left. }
  apply elem_of_app in Hin as [Hin|Hin].
  { rewrite Forall_forall in H1. specialize (H1 _ Hin). congruence. }
  clear Hin. revert pre Heq. induction evs1 as [|e1 evs1 IH]; intros pre Heq.
  - simpl in Heq. eauto.
  - apply Forall_cons in H1 as [He1 H1]. destruct pre as [|p pre].
    + simpl in Heq. inversion Heq; subst. congruence.
    + simpl in Heq. inversion Heq; subst. eauto.
Qed.

Lemma unhandled_last {A} (r : result A) evs ev :
  Forall (fun e => failure_of e = None) evs ->
  (forall x, failure_of ev = Some x -> r = Err x) ->
  unhandled r (evs ++ [ev]).
Proof.
  intros HF Hev pre e post x Heq Hx.
  destruct post as [|p post _] using rev_ind.
  - apply app_inj_tail in Heq as [_ <-]. eauto.
  - rewrite app_comm_cons, app_assoc in Heq.
    apply app_inj_tail in Heq as [-> _].
    apply Forall_app in HF as [_ HF]. apply Forall_cons in HF as [HF _]. congruence.
Qed.

(** ** The schema builder *)

Lemma field_type_spec field ty :
  py_getitem field "type" = Ok ty ->
  field_type field =
    Ok (if py_eq_str ty "number" then "FLOAT"
        else if py_eq_str ty "date" then "TIMESTAMP" else "STRING").
Proof.
  intros H. unfold field_type. rewrite H. simpl.
  by destruct (py_eq_str ty "number"), (py_eq_str ty "date").
Qed.

Lemma field_type_Ok_inv field t :
  field_type field = Ok t -> exists ty, py_getitem field "type" = Ok ty.
Proof.
  unfold field_type. intros H. apply rbind_Ok_inv in H as (ty & H & _). eauto.
Qed.

Lemma field_type_untyped d :
  d !! "type" = None -> field_type (PyDict d) = Err (KeyError "type").
Proof. intros H. unfold field_type. simpl. by rewrite H. Qed.

Section Schema.
Context (w : world).

Lemma add_custom_field_Ok_inv schema field schema' :
  add_custom_field w schema field = Ok schema' ->
  exists col, schema' = schema ++ [col] /\ column_of w field col.
Proof.
  unfold add_custom_field. intros H.
  apply rbind_Ok_inv in H as (t & Ht & H).
  apply rbind_Ok_inv in H as (fid & Hid & H). inversion H; subst; clear H.
  destruct (field_type_Ok_inv _ _ Ht) as (ty & Hty).
  rewrite (field_type_spec _ _ Hty) in Ht. inversion Ht; subst; clear Ht.
  eexists. split; [done|]. exists ty, fid. simpl. repeat split; try done.
  - intros ->. done.
  - intros ->. done.
  - intros H1 H2. apply py_eq_str_false in H1, H2. by rewrite H1, H2.
Qed.

Lemma build_schema_Ok_inv fields schema schema' :
  rfold (add_custom_field w) schema fields = Ok schema' ->
  exists cols, schema' = schema ++ cols /\ Forall2 (column_of w) fields cols.
Proof.
  revert schema. induction fields as [|field fields IH]; simpl; intros schema H.
  - inversion H; subst. exists []. by rewrite app_nil_r.
  - apply rbind_Ok_inv in H as (schema1 & H1 & H).
    apply add_custom_field_Ok_inv in H1 as (col & -> & Hcol).
    apply IH in H as (cols & -> & Hcols).
    exists (col :: cols). split; [by rewrite <- app_assoc | by constructor].
Qed.

(** A successful schema-build step: one request for the custom-field
    definitions, then one create-if-absent call with the schema built from
    them. *)
Lemma create_tables_Ok_inv s s' :
  create_tables_if_not_exist w s = (Ok (), s') ->
  exists resp v fields schema,
    http_get w (events s) (custom_fields_url w (env_value (workspace_id w))) = Ok resp /\
    py_get resp "custom_fields" (PyList []) = Ok v /\
    py_iter v = Ok fields /\
    rfold (add_custom_field w) tasks_schema fields = Ok schema /\
    events s' = events s ++
      [EvHttp (custom_fields_url w (env_value (workspace_id w))) (Ok resp);
       EvBq (CreateTable "clickup_data" "tasks" schema true) None] /\
    tasks_rows s' = Some (default [] (tasks_rows s)).
Proof.
  unfold create_tables_if_not_exist, fetch_custom_fields. intros H.
  apply mbind_Ok_inv in H as (v & s1 & H1 & H).
  apply mbind_Ok_inv in H1 as (resp & s0 & Hget & H1).
  apply lift_inv in H1 as [Hv ->].
  apply mbind_Ok_inv in H as (fields & s2 & H2 & H).
  apply lift_inv in H2 as [Hf ->].
  apply mbind_Ok_inv in H as (schema & s3 & H3 & H).
  apply lift_inv in H3 as [Hs ->].
  unfold get_json in Hget. inversion Hget as [[Hr Hs0]]. clear Hget.
  unfold create_table, bq_call in H.
  destruct (bq_error w (events s0) _) eqn:Hbq; [discriminate|].
  inversion H; subst; clear H. simpl.
  exists resp, v, fields, schema. rewrite <- app_assoc. simpl.
  unfold custom_fields_url. by rewrite Hr.
Qed.

End Schema.

(** ** Flattening a task *)

Lemma lookup_assign_notin (d : gmap string pyval) kvs k :
  k ∉ kvs.*1 -> foldl assign d kvs !! k = d !! k.
Proof.
  revert d. induction kvs as [|[k' v'] kvs IH]; intros d Hk; [done|].
  simpl in *. apply not_elem_of_cons in Hk as [Hne Hk].
  rewrite IH by done. unfold assign. simpl. by rewrite lookup_insert_ne.
Qed.

Lemma lookup_assign_last (d : gmap string pyval) pre k v post :
  k ∉ post.*1 -> foldl assign d (pre ++ (k, v) :: post) !! k = Some v.
Proof.
  intros Hk. rewrite foldl_app. simpl. rewrite lookup_assign_notin by done.
  unfold assign at 1. simpl. by rewrite lookup_insert_eq.
Qed.

Lemma lookup_assign_in (d : gmap string pyval) kvs k :
  k ∈ kvs.*1 -> exists v, (k, v) ∈ kvs /\ foldl assign d kvs !! k = Some v.
Proof.
  induction kvs as [|[k' v'] kvs IH] using rev_ind; intros Hk.
  { by apply elem_of_nil in Hk. }
  rewrite fmap_app in Hk. rewrite foldl_app. simpl. unfold assign at 1. simpl.
  destruct (decide (k = k')) as [->|Hne].
  - exists v'. rewrite lookup_insert_eq. split; [|done].
    apply elem_of_app. right. by apply list_elem_of_singleton.
  - rewrite lookup_insert_ne by done.
    apply elem_of_app in Hk as [Hk|Hk].
    + destruct (IH Hk) as (v & Hin & Hv). exists v. split; [|done].
      apply elem_of_app. by left.
    + simpl in Hk. apply list_elem_of_singleton in Hk. done.
Qed.

Lemma custom_field_key_neq_custom_fields x : "custom_field_" +:+ x <> "custom_fields".
Proof. simpl. discriminate. Qed.

Lemma custom_field_key_neq_space_id x : "custom_field_" +:+ x <> "space_id".
Proof. simpl. discriminate. Qed.

Lemma custom_field_key_neq_list_id x : "custom_field_" +:+ x <> "list_id".
Proof. simpl. discriminate. Qed.

Section Flatten.
Context (w : world).

Lemma field_key_prefix field k :
  field_key w field = Ok k -> exists x, k = "custom_field_" +:+ x.
Proof.
  unfold field_key. intros H. apply rbind_Ok_inv in H as (fid & _ & H).
  inversion H. eauto.
Qed.

Lemma flatten_field_Ok_inv task field t :
  flatten_field w task field = Ok t ->
  exists d kv, task = PyDict d /\ assigned w field kv /\ t = PyDict (assign d kv).
Proof.
  unfold flatten_field. intros H.
  apply rbind_Ok_inv in H as (v & Hv & H).
  apply rbind_Ok_inv in H as (fid & Hid & H).
  apply py_setitem_Ok_inv in H as (d & -> & ->).
  exists d, ("custom_field_" +:+ py_str w fid, v). repeat split; try done.
  unfold field_key. by rewrite Hid.
Qed.

Lemma flatten_fields_Ok_inv fields d t :
  rfold (flatten_field w) (PyDict d) fields = Ok t ->
  exists kvs, Forall2 (assigned w) fields kvs /\ t = PyDict (foldl assign d kvs).
Proof.
  revert d. induction fields as [|field fields IH]; simpl; intros d H.
  - inversion H. by exists [].
  - apply rbind_Ok_inv in H as (t1 & H1 & H).
    apply flatten_field_Ok_inv in H1 as (d0 & kv & Hd & Hkv & ->).
    inversion Hd; subst d0; clear Hd.
    apply IH in H as (kvs & Hkvs & ->).
    exists (kv :: kvs). split; [by constructor | done].
Qed.

(** What a flattened task is: the source record with one assignment per
    entry of its custom-fields collection, in order, then [space_id], then
    [list_id]. *)
Lemma flatten_task_Ok_inv space list_obj src t :
  flatten_task w space list_obj src = Ok t ->
  exists d fields kvs sid lid,
    src = PyDict d /\
    entries src = Ok fields /\
    Forall2 (assigned w) fields kvs /\
    py_getitem space "id" = Ok sid /\
    py_getitem list_obj "id" = Ok lid /\
    t = PyDict (<["list_id" := lid]> (<["space_id" := sid]> (foldl assign d kvs))).
Proof.
  unfold flatten_task. intros H.
  apply rbind_Ok_inv in H as (cf & Hcf & H).
  apply rbind_Ok_inv in H as (fields & Hfields & H).
  apply rbind_Ok_inv in H as (t1 & H1 & H).
  apply rbind_Ok_inv in H as (sid & Hsid & H).
  apply rbind_Ok_inv in H as (t2 & H2 & H).
  apply rbind_Ok_inv in H as (lid & Hlid & H).
  destruct (py_get_Ok_inv _ _ _ _ Hcf) as (d & -> & _).
  apply flatten_fields_Ok_inv in H1 as (kvs & Hkvs & ->).
  apply py_setitem_Ok_inv in H2 as (d2 & Hd2 & ->). inversion Hd2; subst d2; clear Hd2.
  apply py_setitem_Ok_inv in H as (d3 & Hd3 & ->). inversion Hd3; subst d3; clear Hd3.
  exists d, fields, kvs, sid, lid. repeat split; try done.
  unfold entries. by rewrite Hcf.
Qed.

Lemma assigned_keys fields kvs :
  Forall2 (assigned w) fields kvs ->
  Forall (fun k => exists x, k = "custom_field_" +:+ x) kvs.*1.
Proof.
  induction 1 as [|field kv fields kvs [Hk _] _ IH]; simpl; constructor; [|done].
  by apply field_key_prefix in Hk.
Qed.

Lemma assigned_keys_notin fields kvs k :
  Forall2 (assigned w) fields kvs ->
  (forall x, k <> "custom_field_" +:+ x) -> k ∉ kvs.*1.
Proof.
  intros H Hk Hin. apply assigned_keys in H. rewrite Forall_forall in H.
  destruct (H _ Hin) as (x & ->). by apply (Hk x).
Qed.

(** The flattened record keeps its custom-fields collection. *)
Lemma flatten_task_entries space list_obj src t :
  flatten_task w space list_obj src = Ok t -> entries t = entries src.
Proof.
  intros H. apply flatten_task_Ok_inv in H
    as (d & fields & kvs & sid & lid & -> & _ & Hkvs & _ & _ & ->).
  unfold entries. simpl.
  rewrite !lookup_insert_ne by done.
  rewrite lookup_assign_notin; [done|].
  apply (assigned_keys_notin _ _ _ Hkvs). intros x Hx.
  by apply (custom_field_key_neq_custom_fields x).
Qed.

Lemma flatten_task_context space list_obj src t :
  flatten_task w space list_obj src = Ok t ->
  exists sid lid,
    py_getitem space "id" = Ok sid /\ py_getitem list_obj "id" = Ok lid /\
    py_getitem t "space_id" = Ok sid /\ py_getitem t "list_id" = Ok lid.
Proof.
  intros H. apply flatten_task_Ok_inv in H
    as (d & fields & kvs & sid & lid & -> & _ & _ & Hsid & Hlid & ->).
  exists sid, lid. repeat split; try done; simpl.
  - rewrite lookup_insert_ne by done. by rewrite lookup_insert_eq.
  - by rewrite lookup_insert_eq.
Qed.

(** Lookup of a flattened key in the flattened record. *)
Lemma flatten_task_lookup_custom d kvs sid lid x :
  py_getitem (PyDict (<["list_id" := lid]> (<["space_id" := sid]> (foldl assign d kvs))))
             ("custom_field_" +:+ x) =
  py_getitem (PyDict (foldl assign d kvs)) ("custom_field_" +:+ x).
Proof.
  unfold py_getitem.
  rewrite lookup_insert_ne by (intros E; symmetry in E; by apply custom_field_key_neq_list_id in E).
  by rewrite lookup_insert_ne by (intros E; symmetry in E; by apply custom_field_key_neq_space_id in E).
Qed.

End Flatten.

(** ** Traces of monadic code *)

Lemma traced_mret {A} P (a : A) : traced P (mret a).
Proof.
  intros s r s' H. inversion H; subst. exists [].
  rewrite app_nil_r. split; [done|]. split; [constructor|].
  split; [apply unhandled_nil | done].
Qed.

Lemma traced_lift {A} P (x : result A) : traced P (lift x).
Proof.
  intros s r s' H. inversion H; subst. exists [].
  rewrite app_nil_r. split; [done|]. split; [constructor|].
  split; [apply unhandled_nil | done].
Qed.

Lemma traced_mbind {A B} P (c : M A) (k : A -> M B) :
  traced P c -> (forall a, traced P (k a)) -> traced P (mbind c k).
Proof.
  intros Hc Hk s r s' H. apply mbind_inv in H as [(a & s1 & H1 & H2)|(e & H1 & ->)].
  - destruct (Hc _ _ _ H1) as (evs1 & E1 & F1 & U1 & R1).
    destruct (Hk a _ _ _ H2) as (evs2 & E2 & F2 & U2 & R2).
    exists (evs1 ++ evs2). split; [|split; [|split]].
    + by rewrite E2, E1, app_assoc.
    + by apply Forall_app.
    + by eapply unhandled_app.
    + intros HF. apply Forall_app in HF as [HF1 HF2]. by rewrite R2, R1.
  - destruct (Hc _ _ _ H1) as (evs1 & E1 & F1 & U1 & R1).
    exists evs1. split; [done|]. split; [done|]. split; [|done].
    intros pre ev post x Heq Hx. destruct (U1 _ _ _ _ Heq Hx) as [-> Hr].
    split; [done|]. by inversion Hr.
Qed.

Lemma traced_mfold {A B} P (f : A -> B -> M A) xs :
  (forall a b, traced P (f a b)) -> forall a, traced P (mfold f a xs).
Proof.
  intros Hf. induction xs as [|x xs IH]; intros a; simpl.
  - apply traced_mret.
  - apply traced_mbind; [apply Hf | intros a'; apply IH].
Qed.

Lemma traced_weaken {A} (P Q : event -> Prop) (c : M A) :
  (forall e, P e -> Q e) -> traced P c -> traced Q c.
Proof.
  intros HPQ Hc s r s' H. destruct (Hc _ _ _ H) as (evs & E & F & U & R).
  exists evs. split; [done|]. split; [|done]. eapply Forall_impl; eauto.
Qed.

Lemma traced_one {A} (P : event -> Prop) (r : result A) ev s s' :
  events s' = events s ++ [ev] ->
  P ev ->
  (forall x, failure_of ev = Some x -> r = Err x) ->
  (is_bq ev = false -> tasks_rows s' = tasks_rows s) ->
  run_of P s r s'.
Proof.
  intros E HP Hf HR. exists [ev]. split; [done|]. split; [|split].
  - by constructor.
  - by apply (unhandled_last r [] ev).
  - intros HF. apply Forall_cons in HF as [HF _]. auto.
Qed.

Section Traces.
Context (w : world).

Lemma traced_get_json (P : event -> Prop) url :
  (forall r, P (EvHttp url r)) -> traced P (get_json w url).
Proof.
  intros HP s r s' H. unfold get_json in H. inversion H; subst; clear H.
  eapply traced_one; simpl; try done.
  intros x Hx. destruct (http_get w (events s) url); by inversion Hx.
Qed.

Lemma traced_log (P : event -> Prop) lvl msg :
  P (EvLog lvl msg) -> traced P (log lvl msg).
Proof.
  intros HP s r s' H. unfold log in H. inversion H; subst; clear H.
  eapply traced_one; simpl; done.
Qed.

Lemma traced_bq_call (P : event -> Prop) op rows' :
  (forall f, P (EvBq op f)) -> traced P (bq_call w op rows').
Proof.
  intros HP s r s' H. unfold bq_call in H.
  destruct (bq_error w (events s) op) as [e|] eqn:E; inversion H; subst; clear H;
    eapply traced_one; simpl; try done.
  intros x Hx. by inversion Hx.
Qed.

Lemma traced_fetch_list_tasks space tasks list_obj :
  traced extractor_request (fetch_list_tasks w space tasks list_obj).
Proof.
  unfold fetch_list_tasks.
  apply traced_mbind; [apply traced_lift | intros lid].
  apply traced_mbind; [| intros resp].
  { apply traced_get_json. intros r.
    exists ("/list/" +:+ py_str w lid +:+ "/task"), r. split; [done|]. eauto. }
  apply traced_mbind; [apply traced_lift | intros v].
  apply traced_mbind; [apply traced_lift | intros xs]. apply traced_lift.
Qed.

Lemma traced_fetch_space_tasks tasks space :
  traced extractor_request (fetch_space_tasks w tasks space).
Proof.
  unfold fetch_space_tasks.
  apply traced_mbind; [apply traced_lift | intros sid].
  apply traced_mbind; [| intros resp].
  { apply traced_get_json. intros r.
    exists ("/space/" +:+ py_str w sid +:+ "/list"), r. split; [done|]. eauto. }
  apply traced_mbind; [apply traced_lift | intros v].
  apply traced_mbind; [apply traced_lift | intros xs].
  apply traced_mfold. intros a b. apply traced_fetch_list_tasks.
Qed.

Lemma traced_fetch_tasks wid :
  traced extractor_request (fetch_tasks w wid).
Proof.
  unfold fetch_tasks.
  apply traced_mbind; [| intros resp].
  { apply traced_get_json. intros r.
    exists ("/team/" +:+ py_str w wid +:+ "/space"), r. split; [done|]. eauto. }
  apply traced_mbind; [apply traced_lift | intros v].
  apply traced_mbind; [apply traced_lift | intros xs].
  apply traced_mfold. intros a b. apply traced_fetch_space_tasks.
Qed.

(** The extractor makes no warehouse call, so it leaves the table alone. *)
Lemma extractor_request_not_bq e : extractor_request e -> is_bq e = false.
Proof. by intros (path & r & -> & _). Qed.

Lemma extractor_request_not_load e : extractor_request e -> is_load e = false.
Proof. by intros (path & r & -> & _). Qed.

Lemma fetch_tasks_run wid s r s' :
  fetch_tasks w wid s = (r, s') ->
  exists evs,
    events s' = events s ++ evs /\ Forall extractor_request evs /\
    unhandled r evs /\ tasks_rows s' = tasks_rows s.
Proof.
  intros H. destruct (traced_fetch_tasks wid _ _ _ H) as (evs & E & F & U & R).
  exists evs. split; [done|]. split; [done|]. split; [done|]. apply R.
  eapply Forall_impl; [exact F|]. apply extractor_request_not_bq.
Qed.

End Traces.

(** ** Where the tasks of the extractor come from *)

Section Provenance.
Context (w : world).

Lemma get_json_inv url s r s' :
  get_json w url s = (r, s') ->
  r = http_get w (events s) url /\ s' = record (EvHttp url r) s.
Proof. unfold get_json. by inversion 1. Qed.

Lemma fetched_under_mono evs evs' space list_obj src :
  (forall e, e ∈ evs -> e ∈ evs') ->
  fetched_under w evs space list_obj src -> fetched_under w evs' space list_obj src.
Proof.
  intros Hsub (sid & lid & lr & tr & H1 & H2 & H3 & H4 & H5 & H6).
  exists sid, lid, lr, tr. repeat split; auto.
Qed.

Lemma flatten_all_Ok_inv space list_obj srcs tasks tasks' :
  rfold (fun tasks task =>
           let? task := flatten_task w space list_obj task in Ok (tasks ++ [task]))
        tasks srcs = Ok tasks' ->
  exists new, tasks' = tasks ++ new /\
    Forall2 (fun src t => flatten_task w space list_obj src = Ok t) srcs new.
Proof.
  revert tasks. induction srcs as [|src srcs IH]; simpl; intros tasks H.
  - inversion H. exists []. by rewrite app_nil_r.
  - apply rbind_Ok_inv in H as (tasks1 & H1 & H).
    apply rbind_Ok_inv in H1 as (t & Ht & H1). inversion H1; subst; clear H1.
    apply IH in H as (new & -> & Hnew).
    exists (t :: new). split; [by rewrite <- app_assoc | by constructor].
Qed.

(** One pass of the loop over [lists]: one request, and one flattened
    record per task of the answer, in order. *)
Lemma fetch_list_tasks_Ok_inv space tasks list_obj s tasks' s' :
  fetch_list_tasks w space tasks list_obj s = (Ok tasks', s') ->
  exists lid resp v srcs new,
    py_getitem list_obj "id" = Ok lid /\
    s' = record (EvHttp (tasks_url w lid) (Ok resp)) s /\
    py_get resp "tasks" (PyList []) = Ok v /\
    py_iter v = Ok srcs /\
    tasks' = tasks ++ new /\
    Forall2 (fun src t => flatten_task w space list_obj src = Ok t) srcs new.
Proof.
  unfold fetch_list_tasks. intros H.
  apply mbind_Ok_inv in H as (lid & s0 & H0 & H). apply lift_inv in H0 as [Hlid ->].
  apply mbind_Ok_inv in H as (resp & s1 & H1 & H). apply get_json_inv in H1 as [Hr ->].
  apply mbind_Ok_inv in H as (v & s2 & H2 & H). apply lift_inv in H2 as [Hv ->].
  apply mbind_Ok_inv in H as (srcs & s3 & H3 & H). apply lift_inv in H3 as [Hsrcs ->].
  apply lift_inv in H as [H ->]. symmetry in H.
  apply flatten_all_Ok_inv in H as (new & -> & Hnew).
  exists lid, resp, v, srcs, new. rewrite Hr. by repeat split.
Qed.

Lemma fetch_lists_Ok_inv space lists tasks s tasks' s' :
  mfold (fetch_list_tasks w space) tasks lists s = (Ok tasks', s') ->
  exists evs new,
    events s' = events s ++ evs /\
    tasks' = tasks ++ new /\
    Forall (fun t => exists list_obj lid resp src,
              list_obj ∈ lists /\
              py_getitem list_obj "id" = Ok lid /\
              EvHttp (tasks_url w lid) (Ok resp) ∈ evs /\
              listed resp "tasks" src /\
              flatten_task w space list_obj src = Ok t) new.
Proof.
  revert tasks s. induction lists as [|list_obj lists IH]; simpl; intros tasks s H.
  - inversion H; subst. exists [], []. rewrite !app_nil_r. by repeat split.
  - apply mbind_Ok_inv in H as (tasks1 & s1 & H1 & H).
    apply fetch_list_tasks_Ok_inv in H1
      as (lid & resp & v & srcs & new1 & Hlid & -> & Hv & Hsrcs & -> & Hnew1).
    apply IH in H as (evs & new2 & E & -> & Hnew2).
    exists (EvHttp (tasks_url w lid) (Ok resp) :: evs), (new1 ++ new2).
    split; [|split].
    + rewrite E. simpl. by rewrite <- app_assoc.
    + by rewrite app_assoc.
    + apply Forall_app. split.
      * apply Forall_forall. intros t Ht.
        apply (list_elem_of_lookup_1 new1) in Ht as (i & Hi).
        destruct (Forall2_lookup_r _ _ _ _ _ Hnew1 Hi) as (src & Hsrc & Hfl).
        exists list_obj, lid, resp, src. repeat split; try done.
        -- by left.
        -- by left.
        -- exists v, srcs. repeat split; try done. by eapply list_elem_of_lookup_2.
      * eapply Forall_impl; [exact Hnew2|]. simpl.
        intros t (lo & lid' & resp' & src & Hin & Hl & Hev & Hls & Hfl).
        exists lo, lid', resp', src. repeat split; try done; by right.
Qed.

Lemma fetch_space_tasks_Ok_inv tasks space s tasks' s' :
  fetch_space_tasks w tasks space s = (Ok tasks', s') ->
  exists evs new,
    events s' = events s ++ evs /\
    tasks' = tasks ++ new /\
    Forall (fun t => exists list_obj src,
              fetched_under w evs space list_obj src /\
              flatten_task w space list_obj src = Ok t) new.
Proof.
  unfold fetch_space_tasks. intros H.
  apply mbind_Ok_inv in H as (sid & s0 & H0 & H). apply lift_inv in H0 as [Hsid ->].
  apply mbind_Ok_inv in H as (resp & s1 & H1 & H). apply get_json_inv in H1 as [Hr ->].
  apply mbind_Ok_inv in H as (v & s2 & H2 & H). apply lift_inv in H2 as [Hv ->].
  apply mbind_Ok_inv in H as (lists & s3 & H3 & H). apply lift_inv in H3 as [Hlists ->].
  apply fetch_lists_Ok_inv in H as (evs & new & E & -> & Hnew).
  exists (EvHttp (lists_url w sid) (Ok resp) :: evs), new. split; [|split; [done|]].
  - rewrite E. simpl. rewrite <- app_assoc. simpl. by rewrite Hr.
  - eapply Forall_impl; [exact Hnew|]. simpl.
    intros t (lo & lid & tresp & src & Hin & Hl & Hev & Hls & Hfl).
    exists lo, src. split; [|done].
    exists sid, lid, resp, tresp. repeat split; try done.
    + by left.
    + by exists v, lists.
    + by right.
Qed.

Lemma fetch_spaces_Ok_inv spaces tasks s tasks' s' :
  mfold (fetch_space_tasks w) tasks spaces s = (Ok tasks', s') ->
  exists evs new,
    events s' = events s ++ evs /\
    tasks' = tasks ++ new /\
    Forall (fun t => exists space list_obj src,
              space ∈ spaces /\
              fetched_under w evs space list_obj src /\
              flatten_task w space list_obj src = Ok t) new.
Proof.
  revert tasks s. induction spaces as [|space spaces IH]; simpl; intros tasks s H.
  - inversion H; subst. exists [], []. rewrite !app_nil_r. by repeat split.
  - apply mbind_Ok_inv in H as (tasks1 & s1 & H1 & H).
    apply fetch_space_tasks_Ok_inv in H1 as (evs1 & new1 & E1 & -> & Hnew1).
    apply IH in H as (evs2 & new2 & E2 & -> & Hnew2).
    exists (evs1 ++ evs2), (new1 ++ new2). split; [|split].
    + by rewrite E2, E1, app_assoc.
    + by rewrite app_assoc.
    + apply Forall_app. split.
      * eapply Forall_impl; [exact Hnew1|]. simpl.
        intros t (lo & src & Hf & Hfl). exists space, lo, src.
        split; [by left|]. split; [|done].
        eapply fetched_under_mono; [|exact Hf].
        intros e He. apply elem_of_app. by left.
      * eapply Forall_impl; [exact Hnew2|]. simpl.
        intros t (sp & lo & src & Hin & Hf & Hfl). exists sp, lo, src.
        split; [by right|]. split; [|done].
        eapply fetched_under_mono; [|exact Hf].
        intros e He. apply elem_of_app. by right.
Qed.

(** Every record the extractor returns is the flattening of a task that
    was listed under a list of a space of the workspace, all three fetched
    during this run. *)
Lemma fetch_tasks_Ok_inv wid s tasks s' :
  fetch_tasks w wid s = (Ok tasks, s') ->
  exists resp evs,
    events s' = events s ++ EvHttp (spaces_url w wid) (Ok resp) :: evs /\
    Forall (fun t => exists space list_obj src,
              listed resp "spaces" space /\
              fetched_under w evs space list_obj src /\
              flatten_task w space list_obj src = Ok t) tasks.
Proof.
  unfold fetch_tasks. intros H.
  apply mbind_Ok_inv in H as (resp & s1 & H1 & H). apply get_json_inv in H1 as [Hr ->].
  apply mbind_Ok_inv in H as (v & s2 & H2 & H). apply lift_inv in H2 as [Hv ->].
  apply mbind_Ok_inv in H as (spaces & s3 & H3 & H). apply lift_inv in H3 as [Hspaces ->].
  apply fetch_spaces_Ok_inv in H as (evs & new & E & -> & Hnew).
  exists resp, evs. split.
  - rewrite E. simpl. rewrite <- app_assoc. simpl. by rewrite Hr.
  - simpl. eapply Forall_impl; [exact Hnew|]. simpl.
    intros t (sp & lo & src & Hin & Hf & Hfl). exists sp, lo, src.
    split; [|done]. by exists v, spaces.
Qed.

End Provenance.

(** ** The flattened attributes of a record *)

Section FlattenedAttributes.
Context (w : world).

Lemma assigned_key_in fields kvs k :
  Forall2 (assigned w) fields kvs -> k ∈ kvs.*1 ->
  exists g, g ∈ fields /\ field_key w g = Ok k.
Proof.
  intros HF Hk. apply list_elem_of_fmap in Hk as ([k' v] & -> & Hin).
  apply list_elem_of_lookup_1 in Hin as (i & Hi).
  destruct (Forall2_lookup_r _ _ _ _ _ HF Hi) as (g & Hg & Hk & _).
  exists g. split; [by eapply list_elem_of_lookup_2 | done].
Qed.

Lemma assigned_pair_in fields kvs k v :
  Forall2 (assigned w) fields kvs -> (k, v) ∈ kvs ->
  exists g, g ∈ fields /\ field_key w g = Ok k /\ field_value g = Ok v.
Proof.
  intros HF Hin. apply list_elem_of_lookup_1 in Hin as (i & Hi).
  destruct (Forall2_lookup_r _ _ _ _ _ HF Hi) as (g & Hg & Hk & Hv).
  exists g. split; [by eapply list_elem_of_lookup_2 | done].
Qed.

(** The three facts about the attributes of a flattened record: an entry
    that no later entry shadows is found under its key; the key of any
    entry holds the value of an entry with that key; every attribute that
    is neither a flattened key nor [space_id] nor [list_id] is the one of
    the source record. *)
Lemma flatten_task_attributes space list_obj src t :
  flatten_task w space list_obj src = Ok t ->
  exists fields,
    entries src = Ok fields /\
    (forall pre f post, fields = pre ++ f :: post ->
       exists k v, field_key w f = Ok k /\ field_value f = Ok v /\
         (Forall (fun g => field_key w g <> Ok k) post -> py_getitem t k = Ok v)) /\
    (forall f, f ∈ fields ->
       exists k g v, field_key w f = Ok k /\
         g ∈ fields /\ field_key w g = Ok k /\ field_value g = Ok v /\
         py_getitem t k = Ok v) /\
    (forall k, k <> "space_id" -> k <> "list_id" ->
       (forall f, f ∈ fields -> field_key w f <> Ok k) ->
       py_getitem t k = py_getitem src k).
Proof.
  intros H. apply flatten_task_Ok_inv in H
    as (d & fields & kvs & sid & lid & -> & Hfields & Hkvs & _ & _ & ->).
  exists fields. split; [done|]. split; [|split].
  - intros pre f post ->.
    apply Forall2_app_inv_l in Hkvs as (kpre & kpost' & Hpre & Hpost & ->).
    apply Forall2_cons_inv_l in Hpost as ([k v] & kpost & [Hk Hv] & Hpost & ->).
    simpl in Hk, Hv. exists k, v. split; [done|]. split; [done|]. intros Hlater.
    destruct (field_key_prefix _ _ _ Hk) as (x & ->).
    rewrite flatten_task_lookup_custom. simpl.
    rewrite lookup_assign_last; [done|]. intros Hin.
    destruct (assigned_key_in _ _ _ Hpost Hin) as (g & Hg & Hgk).
    rewrite Forall_forall in Hlater. by apply (Hlater g Hg).
  - intros f Hf. apply list_elem_of_lookup_1 in Hf as (i & Hi).
    destruct (Forall2_lookup_l _ _ _ _ _ Hkvs Hi) as ([k v0] & Hkv & Hk & _).
    simpl in Hk.
    assert (Hin : k ∈ kvs.*1).
    { apply list_elem_of_fmap. exists (k, v0). split; [done|].
      by eapply list_elem_of_lookup_2. }
    destruct (lookup_assign_in d kvs k Hin) as (v & Hkvin & Hlook).
    destruct (assigned_pair_in _ _ _ _ Hkvs Hkvin) as (g & Hg & Hgk & Hgv).
    exists k, g, v. repeat split; try done.
    destruct (field_key_prefix _ _ _ Hk) as (x & ->).
    rewrite flatten_task_lookup_custom. simpl. by rewrite Hlook.
  - intros k Hs Hl Hk. simpl.
    rewrite !lookup_insert_ne by done.
    rewrite lookup_assign_notin; [done|]. intros Hin.
    destruct (assigned_key_in _ _ _ Hkvs Hin) as (g & Hg & Hgk).
    by apply (Hk g Hg).
Qed.

End FlattenedAttributes.

(** ** Entries that can be flattened *)

Lemma assigned_has_id (w : world) field kv : assigned w field kv -> has_id field.
Proof.
  intros [Hk _]. unfold field_key in Hk. apply rbind_Ok_inv in Hk as (fid & Hid & _).
  apply py_getitem_Ok_inv in Hid as (d & -> & Hd). exists d. by rewrite Hd.
Qed.

Lemma has_id_assigned (w : world) field :
  has_id field -> exists kv, assigned w field kv.
Proof.
  intros (d & -> & [fid Hd]).
  exists ("custom_field_" +:+ py_str w fid, default PyNone (d !! "value")).
  split; simpl.
  - unfold field_key. simpl. by rewrite Hd.
  - done.
Qed.

Lemma flatten_fields_assigned (w : world) fields kvs d :
  Forall2 (assigned w) fields kvs ->
  rfold (flatten_field w) (PyDict d) fields = Ok (PyDict (foldl assign d kvs)).
Proof.
  intros H. revert d. induction H as [|field [k v] fields kvs [Hk Hv] _ IH]; intros d.
  - done.
  - simpl in *. unfold flatten_field at 1. unfold field_value in Hv. rewrite Hv. simpl.
    unfold field_key in Hk. apply rbind_Ok_inv in Hk as (fid & Hid & Hk).
    rewrite Hid. simpl. inversion Hk; subst k. apply IH.
Qed.

(** ** The stages of a sync run *)

Section Stages.
Context (w : world).

(** [sync_data] stage by stage: the first stage that raises ends the run
    with the error logged; otherwise the run ends with the completion
    line. *)
Lemma sync_data_stages s :
  sync_data w s =
    match create_tables_if_not_exist w (started s) with
    | (Err e, s1) => (Err e, failed w e s1)
    | (Ok _, s1) =>
        match fetch_tasks w (self_workspace_id w) s1 with
        | (Err e, s2) => (Err e, failed w e s2)
        | (Ok tasks, s2) =>
            match load_tasks w tasks s2 with
            | (Err e, s3) => (Err e, failed w e s3)
            | (Ok _, s3) => (Ok (), completed s3)
            end
        end
    end.
Proof.
  unfold sync_data, sync_body, mbind at 1 2, log at 1. fold (started s).
  destruct (create_tables_if_not_exist w (started s)) as [[[]|e] s1]; [|done].
  unfold mbind at 1. fold (self_workspace_id w).
  destruct (fetch_tasks w (self_workspace_id w) s1) as [[tasks|e] s2]; [|done].
  unfold mbind at 1.
  destruct (load_tasks w tasks s2) as [[[]|e] s3]; done.
Qed.

(** The load of a non-empty record set, call by call. *)
Lemma load_tasks_calls t tasks s :
  let job := load_job_of (t :: tasks) in
  load_tasks w (t :: tasks) s =
    match bq_error w (events s) (LoadTableFromJson job) with
    | Some e => (Err e, record (EvBq (LoadTableFromJson job) (Some e)) s)
    | None =>
        let s1 := record (EvBq (LoadTableFromJson job) None) s in
        match bq_error w (events s1) (JobResult job) with
        | Some e => (Err e, record (EvBq (JobResult job) (Some e)) s1)
        | None =>
            (Ok (),
             record (EvLog INFO ("Loaded " +:+ pretty (length (t :: tasks))
                                 +:+ " tasks to BigQuery"))
                    (mkState (events s1 ++ [EvBq (JobResult job) None])
                             (Some (t :: tasks))))
        end
    end.
Proof.
  intros job. unfold load_tasks, load_table_from_json, job_result.
  unfold mbind at 1 2. unfold bq_call at 1. fold (load_job_of (t :: tasks)). fold job.
  destruct (bq_error w (events s) (LoadTableFromJson job)) as [e|]; [done|].
  unfold mret, mbind, bq_call. simpl. fold (load_job_of (t :: tasks)). fold job.
  destruct (bq_error w _ (JobResult job)) as [e|]; done.
Qed.

(** A run that has extracted a non-empty record set, call by call. *)
Lemma sync_data_loads s s1 s2 t tasks :
  create_tables_if_not_exist w (started s) = (Ok (), s1) ->
  fetch_tasks w (self_workspace_id w) s1 = (Ok (t :: tasks), s2) ->
  let job := load_job_of (t :: tasks) in
  let load := EvBq (LoadTableFromJson job) in
  let wait := EvBq (JobResult job) in
  exists r s',
    sync_data w s = (r, s') /\
    match bq_error w (events s2) (LoadTableFromJson job) with
    | Some e =>
        r = Err e /\
        events s' = events s2 ++
          [load (Some e); EvLog ERROR ("Error during sync: " +:+ str_exn w e)] /\
        tasks_rows s' = tasks_rows s2
    | None =>
        match bq_error w (events s2 ++ [load None]) (JobResult job) with
        | Some e =>
            r = Err e /\
            events s' = events s2 ++
              [load None; wait (Some e);
               EvLog ERROR ("Error during sync: " +:+ str_exn w e)] /\
            tasks_rows s' = tasks_rows s2
        | None =>
            r = Ok () /\
            events s' = events s2 ++
              [load None; wait None;
               EvLog INFO ("Loaded " +:+ pretty (length (t :: tasks))
                           +:+ " tasks to BigQuery");
               EvLog INFO "Sync completed successfully"] /\
            tasks_rows s' = Some (t :: tasks)
        end
    end.
Proof.
  intros Hc Hf job load wait. subst load wait.
  rewrite sync_data_stages, Hc, Hf, load_tasks_calls. fold job.
  destruct (bq_error w (events s2) (LoadTableFromJson job)) as [e|].
  { eexists _, _. split; [reflexivity|]. simpl. by rewrite <- app_assoc. }
  cbn [record events].
  destruct (bq_error w (events s2 ++ [EvBq (LoadTableFromJson job) None])
                     (JobResult job)) as [e|].
  { eexists _, _. split; [reflexivity|]. simpl. by rewrite <- !app_assoc. }
  eexists _, _. split; [reflexivity|]. simpl. by rewrite <- !app_assoc.
Qed.

(** The events of the schema-build step, the load and the whole body. *)
Lemma traced_create_tables : traced (sync_event w) (create_tables_if_not_exist w).
Proof.
  unfold create_tables_if_not_exist, fetch_custom_fields.
  apply traced_mbind; [| intros v].
  { apply traced_mbind; [| intros resp; apply traced_lift].
    apply traced_get_json. intros r. right. right. left. by exists r. }
  apply traced_mbind; [apply traced_lift | intros fields].
  apply traced_mbind; [apply traced_lift | intros schema].
  intros s r s' H. unfold create_table in H. revert H.
  apply traced_bq_call. intros f. right. left. eauto.
Qed.

Lemma traced_load_tasks tasks : traced (sync_event w) (load_tasks w tasks).
Proof.
  destruct tasks as [|t tasks]; [apply traced_mret|].
  unfold load_tasks. apply traced_mbind; [| intros job].
  { intros s r s' H. unfold load_table_from_json in H. revert H.
    apply traced_mbind; [| intros u; apply traced_mret].
    apply traced_bq_call. intros f. right. left. eauto. }
  apply traced_mbind; [| intros u].
  { intros s r s' H. unfold job_result in H. revert H.
    apply traced_bq_call. intros f. right. left. eauto. }
  apply traced_log. left. eauto.
Qed.

Lemma traced_sync_body : traced (sync_event w) (sync_body w).
Proof.
  unfold sync_body.
  apply traced_mbind; [apply traced_log; left; eauto | intros u0].
  apply traced_mbind; [apply traced_create_tables | intros u1].
  apply traced_mbind; [| intros tasks].
  { eapply traced_weaken; [|apply traced_fetch_tasks].
    intros e He. by repeat right. }
  apply traced_mbind; [apply traced_load_tasks | intros u2].
  apply traced_log. left. eauto.
Qed.

(** The run as a whole: the events of the body, then the error line if the
    body raised; what the body raised is what the run raises. *)
Lemma sync_data_run s r s' :
  sync_data w s = (r, s') ->
  exists evs,
    events s' = events s ++ evs ++
      match r with
      | Ok _ => []
      | Err e => [EvLog ERROR ("Error during sync: " +:+ str_exn w e)]
      end /\
    Forall (sync_event w) evs /\
    unhandled r evs.
Proof.
  unfold sync_data. destruct (sync_body w s) as [[u|e] s1] eqn:Hb; intros H.
  - inversion H; subst; clear H.
    destruct (traced_sync_body _ _ _ Hb) as (evs & E & F & U & _).
    exists evs. by rewrite app_nil_r.
  - unfold mbind, log, lift in H. inversion H; subst; clear H.
    destruct (traced_sync_body _ _ _ Hb) as (evs & E & F & U & _).
    exists evs. simpl. by rewrite E, <- app_assoc.
Qed.

(** None of the requests of a sync run goes to the task-types endpoint, and
    none of the requests of the extractor to the custom-fields endpoint. *)
Lemma extractor_request_not_workspace e x y r :
  extractor_request e -> e <> EvHttp (base_url +:+ "/workspace/" +:+ x +:+ y) r.
Proof.
  intros (path & r' & -> & z & Hpath) Heq. inversion Heq as [[Hurl Hr]].
  apply (inj (String.app "")) in Hurl. subst path.
  destruct Hpath as [H|[H|H]]; inversion H.
Qed.

Lemma sync_event_not_task_types e r :
  sync_event w e -> e <> EvHttp (custom_task_types_url w (self_workspace_id w)) r.
Proof.
  intros [(l & m & ->)|[(op & f & ->)|[(r' & ->)|He]]]; try done.
  - unfold custom_fields_url, custom_task_types_url. intros Heq.
    inversion Heq as [[Hurl Hr]].
    apply (inj (String.app (py_str w (self_workspace_id w)))) in Hurl.
    discriminate.
  - by apply extractor_request_not_workspace.
Qed.

End Stages.

(** * The properties *)

(** ** Schema builder *)

Lemma typed_field_column (w : world) schema field ty fid :
  py_getitem field "type" = Ok ty ->
  py_getitem field "id" = Ok fid ->
  exists col, add_custom_field w schema field = Ok (schema ++ [col]) /\
              column_of w field col.
Proof.
  intros Hty Hid. unfold add_custom_field.
  rewrite (field_type_spec _ _ Hty). simpl. rewrite Hid. simpl.
  eexists. split; [reflexivity|]. exists ty, fid. simpl.
  split; [done|]. split; [done|]. split; [done|]. split; [|split].
  - by intros ->.
  - by intros ->.
  - intros H1 H2. apply py_eq_str_false in H1, H2. by rewrite H1, H2.
Qed.

Lemma build_schema_total (w : world) fields schema :
  Forall (fun f => has_type f /\ has_id f) fields ->
  exists cols, rfold (add_custom_field w) schema fields = Ok (schema ++ cols) /\
               Forall2 (column_of w) fields cols.
Proof.
  intros H. revert schema.
  induction H as [|field fields [(ty & Hty) Hid] _ IH]; intros schema.
  - exists []. simpl. by rewrite app_nil_r.
  - apply has_id_getitem in Hid as (fid & Hid).
    destruct (typed_field_column w schema field ty fid Hty Hid) as (col & Hadd & Hcol).
    destruct (IH (schema ++ [col])) as (cols & Hrest & Hcols).
    exists (col :: cols). simpl. rewrite Hadd. simpl. rewrite Hrest.
    split; [by rewrite <- app_assoc | by constructor].
Qed.

(** C1, as the code has it.  (1) The column type derived for a definition
    that has a ['type'] attribute is FLOAT if the attribute is ['number'],
    TIMESTAMP if it is ['date'] and STRING for every other value, [None]
    and unknown kinds included.  (2) Such a definition, if it has an ['id'],
    adds to the schema the column [custom_field_<id>] of that type.  (3)
    When every fetched definition has a ['type'] and an ['id'], the
    schema-build step goes on to the create-table call with the base schema
    followed by these columns, one per definition, in order.  (4) A
    schema-build step that succeeded did exactly that.  (5) A definition
    without a ['type'] attribute gets no column: deriving its column raises
    [KeyError('type')]. *)
Theorem custom_field_column_type (w : world) :
  (forall field ty,
     py_getitem field "type" = Ok ty ->
     exists column_type,
       field_type field = Ok column_type /\
       (ty = PyStr "number" -> column_type = "FLOAT") /\
       (ty = PyStr "date" -> column_type = "TIMESTAMP") /\
       (ty <> PyStr "number" -> ty <> PyStr "date" -> column_type = "STRING")) /\
  (forall schema field,
     has_type field -> has_id field ->
     exists col, add_custom_field w schema field = Ok (schema ++ [col]) /\
                 column_of w field col) /\
  (forall s resp fields,
     http_get w (events s) (custom_fields_url w (self_workspace_id w)) = Ok resp ->
     collection resp "custom_fields" = Ok fields ->
     Forall (fun f => has_type f /\ has_id f) fields ->
     exists cols,
       Forall2 (column_of w) fields cols /\
       create_tables_if_not_exist w s
         = create_table w (tasks_schema ++ cols)
             (record (EvHttp (custom_fields_url w (self_workspace_id w)) (Ok resp)) s)) /\
  (forall s s',
     create_tables_if_not_exist w s = (Ok (), s') ->
     exists resp v fields cols,
       http_get w (events s) (custom_fields_url w (self_workspace_id w)) = Ok resp /\
       py_get resp "custom_fields" (PyList []) = Ok v /\
       py_iter v = Ok fields /\
       events s' = events s ++
         [EvHttp (custom_fields_url w (self_workspace_id w)) (Ok resp);
          EvBq (CreateTable "clickup_data" "tasks" (tasks_schema ++ cols) true) None] /\
       Forall2 (column_of w) fields cols) /\
  (forall schema d,
     d !! "type" = None ->
     add_custom_field w schema (PyDict d) = Err (KeyError "type")).
Proof.
  split; [|split; [|split; [|split]]].
  - intros field ty Hty. eexists. split; [exact (field_type_spec _ _ Hty)|].
    split; [by intros ->|]. split; [by intros ->|].
    intros H1 H2. apply py_eq_str_false in H1, H2. by rewrite H1, H2.
  - intros schema field (ty & Hty) Hid.
    apply has_id_getitem in Hid as (fid & Hid).
    by apply (typed_field_column w schema field ty fid).
  - intros s resp fields Hr Hc Hall.
    destruct (build_schema_total w fields tasks_schema Hall) as (cols & Hb & Hcols).
    exists cols. split; [done|].
    unfold collection in Hc. apply rbind_Ok_inv in Hc as (v & Hv & Hit).
    unfold custom_fields_url, self_workspace_id in *.
    unfold create_tables_if_not_exist, fetch_custom_fields, mbind, get_json, lift.
    rewrite Hr. simpl. rewrite Hv, Hit, Hb. reflexivity.
  - intros s s' H.
    apply create_tables_Ok_inv in H as (resp & v & fields & schema & Hr & Hv & Hf & Hs & E & _).
    apply build_schema_Ok_inv in Hs as (cols & -> & Hcols).
    by exists resp, v, fields, cols.
  - intros schema d Hd. unfold add_custom_field.
    by rewrite (field_type_untyped d Hd).
Qed.

(** C1 as stated fails: the definition [{"id": "F1"}] declares no kind, and
    no STRING column is derived for it; the sync ends with
    [KeyError('type')]. *)
Lemma untyped_field_gets_no_column :
  py_get (dict [("id", PyStr "F1")]) "type" PyNone = Ok PyNone /\
  ~ (exists col, add_custom_field world_untyped_field tasks_schema
                   (dict [("id", PyStr "F1")]) = Ok (tasks_schema ++ [col])
                 /\ sf_type col = "STRING") /\
  (sync_data world_untyped_field s_init).1 = Err (KeyError "type").
Proof.
  split; [by vm_compute|]. split; [|by vm_compute].
  intros (col & H & _). vm_compute in H. discriminate.
Qed.

Lemma custom_field_column_type_witness :
  field_type (dict [("id", PyStr "F1"); ("type", PyStr "number")]) = Ok "FLOAT" /\
  field_type (dict [("id", PyStr "F2"); ("type", PyStr "date")]) = Ok "TIMESTAMP" /\
  field_type (dict [("id", PyStr "F3"); ("type", PyStr "drop_down")]) = Ok "STRING" /\
  field_type (dict [("id", PyStr "F4"); ("type", PyNone)]) = Ok "STRING" /\
  exists cols,
    Forall2 (column_of world_two_tasks)
            [dict [("id", PyStr "F1"); ("type", PyStr "number")]] cols /\
    create_tables_if_not_exist world_two_tasks s_init
      = create_table world_two_tasks (tasks_schema ++ cols)
          (record (EvHttp (custom_fields_url world_two_tasks
                             (self_workspace_id world_two_tasks))
                     (Ok (dict [("custom_fields",
                            PyList [dict [("id", PyStr "F1");
                                          ("type", PyStr "number")]])])))
                  s_init).
Proof.
  destruct (custom_field_column_type world_two_tasks) as (H1 & _ & H3 & _).
  split; [|split; [|split; [|split]]].
  - destruct (H1 (dict [("id", PyStr "F1"); ("type", PyStr "number")])
                 (PyStr "number") eq_refl) as (ct & Hft & Hn & _).
    by rewrite Hft, (Hn eq_refl).
  - destruct (H1 (dict [("id", PyStr "F2"); ("type", PyStr "date")])
                 (PyStr "date") eq_refl) as (ct & Hft & _ & Hd & _).
    by rewrite Hft, (Hd eq_refl).
  - destruct (H1 (dict [("id", PyStr "F3"); ("type", PyStr "drop_down")])
                 (PyStr "drop_down") eq_refl) as (ct & Hft & _ & _ & Ho).
    rewrite Hft, Ho; done.
  - destruct (H1 (dict [("id", PyStr "F4"); ("type", PyNone)])
                 PyNone eq_refl) as (ct & Hft & _ & _ & Ho).
    rewrite Hft, Ho; done.
  - apply H3.
    + vm_compute. reflexivity.
    + vm_compute. reflexivity.
    + constructor; [|constructor]. split.
      * exists (PyStr "number"). reflexivity.
      * eexists. split; [reflexivity|]. vm_compute. eauto.
Defined.

(** ** Extractor *)

(** C3.  Every record the extractor returns is the flattening of a task
    listed by the tasks request of a list, itself listed by the lists
    request of a space of the workspace, and it holds under ['space_id'] and
    ['list_id'] the ['id'] of that space and of that list. *)
Theorem task_records_carry_context (w : world) (wid : pyval) s tasks s' :
  fetch_tasks w wid s = (Ok tasks, s') ->
  exists resp evs,
    events s' = events s ++ EvHttp (spaces_url w wid) (Ok resp) :: evs /\
    Forall (fun t => exists space list_obj src sid lid,
              listed resp "spaces" space /\
              fetched_under w evs space list_obj src /\
              flatten_task w space list_obj src = Ok t /\
              py_getitem space "id" = Ok sid /\
              py_getitem list_obj "id" = Ok lid /\
              py_getitem t "space_id" = Ok sid /\
              py_getitem t "list_id" = Ok lid) tasks.
Proof.
  intros H. apply fetch_tasks_Ok_inv in H as (resp & evs & E & Htasks).
  exists resp, evs. split; [done|].
  eapply Forall_impl; [exact Htasks|]. simpl.
  intros t (space & list_obj & src & Hsp & Hf & Hfl).
  destruct (flatten_task_context _ _ _ _ _ Hfl) as (sid & lid & Hsid & Hlid & Hts & Htl).
  by exists space, list_obj, src, sid, lid.
Qed.

Lemma task_records_carry_context_witness :
  fetch_tasks world_two_tasks (PyStr "W1") s_init
    = (Ok [row_T1; row_T2], (fetch_tasks world_two_tasks (PyStr "W1") s_init).2) /\
  Forall (fun t => exists sid lid,
            py_getitem t "space_id" = Ok sid /\ py_getitem t "list_id" = Ok lid)
         [row_T1; row_T2].
Proof.
  assert (H : fetch_tasks world_two_tasks (PyStr "W1") s_init
              = (Ok [row_T1; row_T2],
                 (fetch_tasks world_two_tasks (PyStr "W1") s_init).2))
    by (vm_compute; reflexivity).
  split; [exact H|].
  destruct (task_records_carry_context _ _ _ _ _ H) as (resp & evs & _ & HF).
  eapply Forall_impl; [exact HF|]. simpl.
  intros t (space & list_obj & src & sid & lid & _ & _ & _ & _ & _ & Hs & Hl).
  by exists sid, lid.
Defined.

(** C2, as the code has it.  For every record the extractor returns and
    every entry of its custom-fields collection, the record has the key
    [custom_field_<id>] of the entry, and what it holds there is the
    ['value'] attribute, as supplied ([None] when there is none), of an
    entry with that key: of this very entry when no later entry of the
    collection has the same key. *)
Theorem custom_fields_flattened (w : world) (wid : pyval) s tasks s' :
  fetch_tasks w wid s = (Ok tasks, s') ->
  Forall (fun t => exists fields,
            entries t = Ok fields /\
            forall pre f post, fields = pre ++ f :: post ->
              exists k v,
                field_key w f = Ok k /\
                field_value f = Ok v /\
                (exists g v', g ∈ fields /\ field_key w g = Ok k /\
                              field_value g = Ok v' /\ py_getitem t k = Ok v') /\
                (Forall (fun g => field_key w g <> Ok k) post ->
                 py_getitem t k = Ok v)) tasks.
Proof.
  intros H. apply fetch_tasks_Ok_inv in H as (resp & evs & _ & Htasks).
  eapply Forall_impl; [exact Htasks|]. simpl.
  intros t (space & list_obj & src & _ & _ & Hfl).
  destruct (flatten_task_attributes _ _ _ _ _ Hfl) as (fields & Hfields & Hlast & Hany & _).
  exists fields. split; [by rewrite (flatten_task_entries _ _ _ _ _ Hfl)|].
  intros pre f post ->.
  destruct (Hlast pre f post eq_refl) as (k & v & Hk & Hv & Hown).
  exists k, v. split; [done|]. split; [done|]. split; [|done].
  destruct (Hany f) as (k' & g & v' & Hk' & Hg & Hgk & Hgv & Hget).
  { apply elem_of_app. right. by left. }
  rewrite Hk in Hk'. inversion Hk'; subst k'. by exists g, v'.
Qed.

(** C2 as stated fails: the task [T1] carries two entries for the field
    [F], and the record the extractor returns holds the value of the second
    one under [custom_field_F], not the value [1] of the first. *)
Lemma repeated_field_not_verbatim :
  (fetch_tasks world_two_entries (PyStr "W1") s_init).1 = Ok [row_two_entries] /\
  entries row_two_entries = Ok [entry_F_1; entry_F_2] /\
  ~ (forall f, f ∈ [entry_F_1; entry_F_2] ->
       exists k v, field_key world_two_entries f = Ok k /\
                   field_value f = Ok v /\
                   py_getitem row_two_entries k = Ok v).
Proof.
  split; [by vm_compute|]. split; [by vm_compute|].
  intros H. destruct (H entry_F_1) as (k & v & Hk & Hv & Hget); [by left|].
  vm_compute in Hk. inversion Hk; subst k; clear Hk.
  vm_compute in Hv. inversion Hv; subst v; clear Hv.
  vm_compute in Hget. discriminate.
Qed.

Lemma custom_fields_flattened_witness :
  fetch_tasks world_two_tasks (PyStr "W1") s_init
    = (Ok [row_T1; row_T2], (fetch_tasks world_two_tasks (PyStr "W1") s_init).2) /\
  Forall (fun t => exists fields, entries t = Ok fields) [row_T1; row_T2].
Proof.
  assert (H : fetch_tasks world_two_tasks (PyStr "W1") s_init
              = (Ok [row_T1; row_T2],
                 (fetch_tasks world_two_tasks (PyStr "W1") s_init).2))
    by (vm_compute; reflexivity).
  split; [exact H|].
  eapply Forall_impl; [exact (custom_fields_flattened _ _ _ _ _ H)|]. simpl.
  intros t (fields & Hf & _). by exists fields.
Defined.

(** The record [flatten_task] makes of an object whose entries all have an
    ['id']. *)
Lemma flatten_task_total (w : world) space list_obj d fields sid lid :
  entries (PyDict d) = Ok fields ->
  Forall has_id fields ->
  py_getitem space "id" = Ok sid ->
  py_getitem list_obj "id" = Ok lid ->
  exists kvs,
    Forall2 (assigned w) fields kvs /\
    flatten_task w space list_obj (PyDict d)
      = Ok (PyDict (<["list_id" := lid]> (<["space_id" := sid]> (foldl assign d kvs)))).
Proof.
  intros Hf Hids Hsid Hlid.
  assert (Hkvs : exists kvs, Forall2 (assigned w) fields kvs).
  { clear Hf. induction Hids as [|f fields Hfid _ (kvs & IH)]; [by exists []|].
    destruct (has_id_assigned w f Hfid) as (kv & Hkv).
    exists (kv :: kvs). by constructor. }
  destruct Hkvs as (kvs & Hkvs). exists kvs. split; [done|].
  unfold entries in Hf. apply rbind_Ok_inv in Hf as (cf & Hcf & Hit).
  unfold flatten_task. rewrite Hcf. simpl. rewrite Hit. simpl.
  rewrite (flatten_fields_assigned w fields kvs d Hkvs). simpl.
  rewrite Hsid. simpl. by rewrite Hlid.
Qed.

(** C10.  (1) Whatever attributes the source task has, flattening it under
    a space and a list gives a record whose ['space_id'] and ['list_id'] are
    the ['id'] of that space and of that list, in which the key of every
    custom-field entry holds the value of an entry with that key, and whose
    other attributes are those of the source: the record is the source,
    written in place.  (2) Flattening succeeds with that result for every
    object whose entries have an ['id'], so also for one that already has
    attributes of these names.  (3) Every record the extractor returns is so
    made from a task, a list and a space of this run: of the task listed
    under that list, listed under that space, listed in the spaces answer. *)
Theorem flattening_overwrites (w : world) :
  (forall space list_obj src t,
     flatten_task w space list_obj src = Ok t ->
     exists d fields sid lid,
       src = PyDict d /\
       entries src = Ok fields /\
       py_getitem space "id" = Ok sid /\
       py_getitem list_obj "id" = Ok lid /\
       py_getitem t "space_id" = Ok sid /\
       py_getitem t "list_id" = Ok lid /\
       (forall f, f ∈ fields ->
          exists k g v, field_key w f = Ok k /\
            g ∈ fields /\ field_key w g = Ok k /\ field_value g = Ok v /\
            py_getitem t k = Ok v) /\
       (forall k, k <> "space_id" -> k <> "list_id" ->
          (forall f, f ∈ fields -> field_key w f <> Ok k) ->
          py_getitem t k = py_getitem src k)) /\
  (forall space list_obj d fields sid lid,
     entries (PyDict d) = Ok fields ->
     Forall has_id fields ->
     py_getitem space "id" = Ok sid ->
     py_getitem list_obj "id" = Ok lid ->
     exists t,
       flatten_task w space list_obj (PyDict d) = Ok t /\
       py_getitem t "space_id" = Ok sid /\
       py_getitem t "list_id" = Ok lid) /\
  (forall wid s tasks s',
     fetch_tasks w wid s = (Ok tasks, s') ->
     exists resp evs,
       events s' = events s ++ EvHttp (spaces_url w wid) (Ok resp) :: evs /\
       Forall (fun t => exists space list_obj src sid lid fields,
                 listed resp "spaces" space /\
                 fetched_under w evs space list_obj src /\
                 flatten_task w space list_obj src = Ok t /\
                 entries src = Ok fields /\
                 py_getitem space "id" = Ok sid /\
                 py_getitem list_obj "id" = Ok lid /\
                 py_getitem t "space_id" = Ok sid /\
                 py_getitem t "list_id" = Ok lid /\
                 (forall f, f ∈ fields ->
                    exists k g v, field_key w f = Ok k /\
                      g ∈ fields /\ field_key w g = Ok k /\ field_value g = Ok v /\
                      py_getitem t k = Ok v) /\
                 (forall k, k <> "space_id" -> k <> "list_id" ->
                    (forall f, f ∈ fields -> field_key w f <> Ok k) ->
                    py_getitem t k = py_getitem src k)) tasks).
Proof.
  assert (Hpure : forall space list_obj src t,
     flatten_task w space list_obj src = Ok t ->
     exists d fields sid lid,
       src = PyDict d /\
       entries src = Ok fields /\
       py_getitem space "id" = Ok sid /\
       py_getitem list_obj "id" = Ok lid /\
       py_getitem t "space_id" = Ok sid /\
       py_getitem t "list_id" = Ok lid /\
       (forall f, f ∈ fields ->
          exists k g v, field_key w f = Ok k /\
            g ∈ fields /\ field_key w g = Ok k /\ field_value g = Ok v /\
            py_getitem t k = Ok v) /\
       (forall k, k <> "space_id" -> k <> "list_id" ->
          (forall f, f ∈ fields -> field_key w f <> Ok k) ->
          py_getitem t k = py_getitem src k)).
  { intros space list_obj src t Hfl.
    destruct (flatten_task_attributes _ _ _ _ _ Hfl)
      as (fields & Hfields & _ & Hany & Hframe).
    destruct (flatten_task_context _ _ _ _ _ Hfl) as (sid & lid & Hsid & Hlid & Hts & Htl).
    destruct (flatten_task_Ok_inv _ _ _ _ _ Hfl) as (d & _ & _ & _ & _ & Hd & _).
    by exists d, fields, sid, lid. }
  split; [exact Hpure|]. split.
  - intros space list_obj d fields sid lid Hf Hids Hsid Hlid.
    destruct (flatten_task_total w space list_obj d fields sid lid Hf Hids Hsid Hlid)
      as (kvs & _ & Hfl).
    eexists. split; [exact Hfl|]. simpl.
    rewrite lookup_insert_ne by done. by rewrite !lookup_insert_eq.
  - intros wid s tasks s' H.
    apply fetch_tasks_Ok_inv in H as (resp & evs & E & Htasks).
    exists resp, evs. split; [done|].
    eapply Forall_impl; [exact Htasks|]. simpl.
    intros t (space & list_obj & src & Hsp & Hfu & Hfl).
    destruct (Hpure _ _ _ _ Hfl)
      as (d & fields & sid & lid & _ & Hf & Hsid & Hlid & Hts & Htl & Hany & Hframe).
    by exists space, list_obj, src, sid, lid, fields.
Qed.

Lemma flattening_overwrites_witness :
  py_getitem task_T2 "space_id" = Ok (PyStr "stale") /\
  py_getitem task_T2 "list_id" = Ok (PyStr "stale") /\
  py_getitem task_T2 "custom_field_F1" = Ok (PyStr "stale") /\
  flatten_task world_two_tasks (dict [("id", PyStr "S1")]) (dict [("id", PyStr "L1")])
               task_T2 = Ok row_T2 /\
  py_getitem row_T2 "space_id" = Ok (PyStr "S1") /\
  py_getitem row_T2 "list_id" = Ok (PyStr "L1") /\
  py_getitem row_T2 "custom_field_F1" = Ok four_and_a_half /\
  fetch_tasks world_two_tasks (PyStr "W1") s_init
    = (Ok [row_T1; row_T2], (fetch_tasks world_two_tasks (PyStr "W1") s_init).2).
Proof.
  assert (Hfl : flatten_task world_two_tasks (dict [("id", PyStr "S1")])
                  (dict [("id", PyStr "L1")]) task_T2 = Ok row_T2)
    by (vm_compute; reflexivity).
  destruct (flattening_overwrites world_two_tasks) as (H1 & _ & _).
  destruct (H1 _ _ _ _ Hfl)
    as (d & fields & sid & lid & _ & Hf & Hsid & Hlid & Hts & Htl & Hany & _).
  split; [by vm_compute|]. split; [by vm_compute|]. split; [by vm_compute|].
  split; [exact Hfl|].
  split; [by rewrite Hts, <- Hsid|]. split; [by rewrite Htl, <- Hlid|].
  split; [by vm_compute|]. vm_compute. reflexivity.
Defined.

(** ** Loader *)

(** C4.  When the schema-build step has succeeded and the extractor
    returns no record, the run ends successfully right after the
    extraction: among the events of the run there is no load call and no
    wait on a load job, and the rows of the table are those the
    create-if-absent call left (the rows before the run, or none for a new
    table). *)
Theorem empty_task_set_skips_load (w : world) s s1 s2 :
  create_tables_if_not_exist w (started s) = (Ok (), s1) ->
  fetch_tasks w (self_workspace_id w) s1 = (Ok [], s2) ->
  sync_data w s = (Ok (), completed s2) /\
  (exists evs, events (completed s2) = events s ++ evs /\
               Forall (fun e => is_load e = false) evs) /\
  tasks_rows (completed s2) = Some (default [] (tasks_rows s)).
Proof.
  intros Hc Hf. split; [|split].
  - rewrite sync_data_stages, Hc, Hf. done.
  - apply create_tables_Ok_inv in Hc as (resp & v & fields & schema & _ & _ & _ & _ & E1 & _).
    apply fetch_tasks_run in Hf as (evs & E2 & HF & _ & _).
    eexists. split.
    + simpl. rewrite E2, E1. simpl. rewrite <- !app_assoc. reflexivity.
    + simpl. repeat (apply Forall_cons; split; [done|]).
      apply Forall_app. split; [|by repeat constructor].
      eapply Forall_impl; [exact HF|]. apply extractor_request_not_load.
  - apply create_tables_Ok_inv in Hc as (resp & v & fields & schema & _ & _ & _ & _ & _ & R1).
    apply fetch_tasks_run in Hf as (evs & _ & _ & _ & R2).
    simpl. by rewrite R2, R1.
Qed.

Lemma empty_task_set_skips_load_witness :
  exists s1 s2,
    create_tables_if_not_exist world_no_spaces (started s_init) = (Ok (), s1) /\
    fetch_tasks world_no_spaces (PyStr "W1") s1 = (Ok [], s2) /\
    sync_data world_no_spaces s_init = (Ok (), completed s2) /\
    tasks_rows (completed s2) = Some [].
Proof.
  exists (create_tables_if_not_exist world_no_spaces (started s_init)).2.
  eexists (fetch_tasks world_no_spaces (PyStr "W1") _).2.
  assert (Hc : create_tables_if_not_exist world_no_spaces (started s_init)
               = (Ok (), (create_tables_if_not_exist world_no_spaces (started s_init)).2))
    by (vm_compute; reflexivity).
  assert (Hf : fetch_tasks world_no_spaces (self_workspace_id world_no_spaces)
                 (create_tables_if_not_exist world_no_spaces (started s_init)).2
               = (Ok [], (fetch_tasks world_no_spaces (PyStr "W1")
                    (create_tables_if_not_exist world_no_spaces (started s_init)).2).2))
    by (vm_compute; reflexivity).
  destruct (empty_task_set_skips_load world_no_spaces s_init _ _ Hc Hf) as (H1 & _ & H3).
  split; [exact Hc|]. split; [exact Hf|]. split; [exact H1 | exact H3].
Defined.

(** C7.  When the schema-build step has succeeded and the extractor
    returns a non-empty record set, the next call is the load of exactly
    these records into [clickup_data.tasks] with [WRITE_TRUNCATE]; if it
    raises, the run fails there.  Otherwise the next call is the wait on
    that job; if it raises, the run fails there with the rows unchanged.
    Only when the wait has returned are the two success lines logged, and
    the rows of the table are then exactly the extracted records, whatever
    the table held before. *)
Theorem load_is_blocking_overwrite (w : world) s s1 s2 t tasks :
  create_tables_if_not_exist w (started s) = (Ok (), s1) ->
  fetch_tasks w (self_workspace_id w) s1 = (Ok (t :: tasks), s2) ->
  let job := load_job_of (t :: tasks) in
  let load := EvBq (LoadTableFromJson job) in
  let wait := EvBq (JobResult job) in
  job_disposition job = WRITE_TRUNCATE /\
  exists r s',
    sync_data w s = (r, s') /\
    match bq_error w (events s2) (LoadTableFromJson job) with
    | Some e =>
        r = Err e /\
        events s' = events s2 ++
          [load (Some e); EvLog ERROR ("Error during sync: " +:+ str_exn w e)] /\
        tasks_rows s' = tasks_rows s2
    | None =>
        match bq_error w (events s2 ++ [load None]) (JobResult job) with
        | Some e =>
            r = Err e /\
            events s' = events s2 ++
              [load None; wait (Some e);
               EvLog ERROR ("Error during sync: " +:+ str_exn w e)] /\
            tasks_rows s' = tasks_rows s2
        | None =>
            r = Ok () /\
            events s' = events s2 ++
              [load None; wait None;
               EvLog INFO ("Loaded " +:+ pretty (length (t :: tasks))
                           +:+ " tasks to BigQuery");
               EvLog INFO "Sync completed successfully"] /\
            tasks_rows s' = Some (t :: tasks)
        end
    end.
Proof.
  intros Hc Hf job load wait. split; [done|].
  exact (sync_data_loads w s s1 s2 t tasks Hc Hf).
Qed.

Lemma load_is_blocking_overwrite_witness :
  exists s1 s2 s',
    create_tables_if_not_exist world_two_tasks (started s_init) = (Ok (), s1) /\
    fetch_tasks world_two_tasks (PyStr "W1") s1 = (Ok [row_T1; row_T2], s2) /\
    sync_data world_two_tasks s_init = (Ok (), s') /\
    tasks_rows s' = Some [row_T1; row_T2].
Proof.
  exists (create_tables_if_not_exist world_two_tasks (started s_init)).2.
  eexists (fetch_tasks world_two_tasks (PyStr "W1") _).2.
  assert (Hc : create_tables_if_not_exist world_two_tasks (started s_init)
               = (Ok (), (create_tables_if_not_exist world_two_tasks (started s_init)).2))
    by (vm_compute; reflexivity).
  assert (Hf : fetch_tasks world_two_tasks (self_workspace_id world_two_tasks)
                 (create_tables_if_not_exist world_two_tasks (started s_init)).2
               = (Ok [row_T1; row_T2],
                  (fetch_tasks world_two_tasks (PyStr "W1")
                    (create_tables_if_not_exist world_two_tasks (started s_init)).2).2))
    by (vm_compute; reflexivity).
  destruct (load_is_blocking_overwrite world_two_tasks s_init _ _ row_T1 [row_T2] Hc Hf)
    as (_ & r & s' & Hs & H).
  simpl in H. destruct H as (-> & _ & Hrows).
  exists s'. split; [exact Hc|]. split; [exact Hf|]. split; [exact Hs | exact Hrows].
Defined.

(** ** Whole runs *)

(** The extractor on a spaces answer that holds no space. *)
Lemma fetch_tasks_no_spaces (w : world) (wid : pyval) s d :
  http_get w (events s) (spaces_url w wid) = Ok (PyDict d) ->
  d !! "spaces" = None \/ d !! "spaces" = Some (PyList []) ->
  fetch_tasks w wid s = (Ok [], record (EvHttp (spaces_url w wid) (Ok (PyDict d))) s).
Proof.
  intros Hr Hd. unfold spaces_url in *.
  unfold fetch_tasks, mbind, get_json. rewrite Hr. simpl.
  by destruct Hd as [-> | ->].
Qed.

Lemma loaded_line_neq_start n :
  "Loaded " +:+ n <> "Starting ClickUp to BigQuery sync".
Proof. inversion 1. Qed.

Lemma loaded_line_neq_completed n :
  "Loaded " +:+ n <> "Sync completed successfully".
Proof. inversion 1. Qed.

(** C5.  When the schema-build step has succeeded and the spaces answer
    holds an empty ['spaces'] list, the extractor returns no record after
    that single request, and the run succeeds with exactly five events, none
    of them a load call: its log is the start line and the completion line,
    with no "Loaded ..." line.  A successful run that extracted [n > 0]
    records, in contrast, logs "Loaded n tasks to BigQuery". *)
Theorem zero_spaces_run (w : world) s s1 d :
  create_tables_if_not_exist w (started s) = (Ok (), s1) ->
  http_get w (events s1) (spaces_url w (self_workspace_id w)) = Ok (PyDict d) ->
  d !! "spaces" = Some (PyList []) ->
  fetch_tasks w (self_workspace_id w) s1
    = (Ok [], record (EvHttp (spaces_url w (self_workspace_id w)) (Ok (PyDict d))) s1) /\
  (exists s' resp schema evs,
     sync_data w s = (Ok (), s') /\
     events s' = events s ++ evs /\
     evs = [EvLog INFO "Starting ClickUp to BigQuery sync";
            EvHttp (custom_fields_url w (self_workspace_id w)) (Ok resp);
            EvBq (CreateTable "clickup_data" "tasks" schema true) None;
            EvHttp (spaces_url w (self_workspace_id w)) (Ok (PyDict d));
            EvLog INFO "Sync completed successfully"] /\
     Forall (fun e => is_load e = false) evs /\
     log_lines evs = [(INFO, "Starting ClickUp to BigQuery sync");
                      (INFO, "Sync completed successfully")] /\
     forall n, (INFO, "Loaded " +:+ n) ∉ log_lines evs) /\
  (forall s0 s1' s2' t tasks s'',
     create_tables_if_not_exist w (started s0) = (Ok (), s1') ->
     fetch_tasks w (self_workspace_id w) s1' = (Ok (t :: tasks), s2') ->
     sync_data w s0 = (Ok (), s'') ->
     exists evs,
       events s'' = events s0 ++ evs /\
       EvLog INFO ("Loaded " +:+ pretty (length (t :: tasks)) +:+ " tasks to BigQuery")
         ∈ evs).
Proof.
  intros Hc Hr Hd.
  pose proof (fetch_tasks_no_spaces w _ s1 d Hr (or_intror Hd)) as Hf.
  split; [exact Hf|]. split.
  - pose proof Hc as Hc'.
    apply create_tables_Ok_inv in Hc' as (resp & v & fields & schema & _ & _ & _ & _ & E1 & _).
    eexists _, resp, schema, _. split.
    { rewrite sync_data_stages, Hc, Hf. reflexivity. }
    split.
    { simpl. rewrite E1. simpl. rewrite <- !app_assoc. reflexivity. }
    split; [reflexivity|]. split; [by repeat constructor|]. split; [reflexivity|].
    intros n Hin. simpl in Hin.
    apply elem_of_cons in Hin as [Hin|Hin].
    { apply (loaded_line_neq_start n). congruence. }
    apply list_elem_of_singleton in Hin.
    apply (loaded_line_neq_completed n). congruence.
  - intros s0 s1' s2' t tasks s'' Hc0 Hf0 Hs.
    destruct (sync_data_loads w s0 s1' s2' t tasks Hc0 Hf0) as (r & s3 & Hs3 & H).
    rewrite Hs in Hs3. inversion Hs3; subst r s3; clear Hs3.
    apply create_tables_Ok_inv in Hc0
      as (resp & v & fields & schema & _ & _ & _ & _ & E1 & _).
    apply fetch_tasks_run in Hf0 as (evs & E2 & _ & _ & _).
    destruct (bq_error w (events s2') _) as [e|]; [by destruct H|].
    destruct (bq_error w (events s2' ++ _) _) as [e|]; [by destruct H|].
    destruct H as (_ & E3 & _).
    eexists. split.
    { rewrite E3, E2, E1. simpl. rewrite <- !app_assoc. reflexivity. }
    simpl. do 3 right. apply elem_of_app. right. do 2 right. by left.
Qed.

Lemma zero_spaces_run_witness :
  exists s1 d s',
    create_tables_if_not_exist world_no_spaces (started s_init) = (Ok (), s1) /\
    http_get world_no_spaces (events s1)
      (spaces_url world_no_spaces (self_workspace_id world_no_spaces)) = Ok (PyDict d) /\
    d !! "spaces" = Some (PyList []) /\
    sync_data world_no_spaces s_init = (Ok (), s').
Proof.
  exists (create_tables_if_not_exist world_no_spaces (started s_init)).2.
  exists (list_to_map [("spaces", PyList [])]).
  assert (Hc : create_tables_if_not_exist world_no_spaces (started s_init)
               = (Ok (), (create_tables_if_not_exist world_no_spaces (started s_init)).2))
    by (vm_compute; reflexivity).
  assert (Hr : http_get world_no_spaces
                 (events (create_tables_if_not_exist world_no_spaces (started s_init)).2)
                 (spaces_url world_no_spaces (self_workspace_id world_no_spaces))
               = Ok (PyDict (list_to_map [("spaces", PyList [])])))
    by (vm_compute; reflexivity).
  assert (Hd : (list_to_map [("spaces", PyList [])] : gmap string pyval) !! "spaces"
               = Some (PyList []))
    by (vm_compute; reflexivity).
  destruct (zero_spaces_run world_no_spaces s_init _ _ Hc Hr Hd)
    as (_ & (s' & resp & schema & evs & Hs & _) & _).
  exists s'. split; [exact Hc|]. split; [exact Hr|]. split; [exact Hd | exact Hs].
Defined.

(** ** Exceptions inside the stages *)

Lemma rfold_app_Err {A B} (f : A -> B -> result A) a pre x post a1 e :
  rfold f a pre = Ok a1 -> f a1 x = Err e -> rfold f a (pre ++ x :: post) = Err e.
Proof.
  revert a. induction pre as [|y pre IH]; simpl; intros a Hpre Hx.
  - inversion Hpre; subst. by rewrite Hx.
  - apply rbind_Ok_inv in Hpre as (a' & Hy & Hpre). rewrite Hy. simpl. by apply IH.
Qed.

Lemma mfold_app_Err {A B} (f : A -> B -> M A) a pre x post s a1 s1 e s2 :
  mfold f a pre s = (Ok a1, s1) -> f a1 x s1 = (Err e, s2) ->
  mfold f a (pre ++ x :: post) s = (Err e, s2).
Proof.
  revert a s. induction pre as [|y pre IH]; simpl; intros a s Hpre Hx.
  - inversion Hpre; subst. unfold mbind. by rewrite Hx.
  - apply mbind_Ok_inv in Hpre as (a' & s' & Hy & Hpre).
    unfold mbind at 1. rewrite Hy. by apply IH.
Qed.

Lemma flatten_all_total (w : world) space list_obj pre tasks :
  Forall (fun x => exists t, flatten_task w space list_obj x = Ok t) pre ->
  exists new,
    rfold (fun tasks task =>
             let? task := flatten_task w space list_obj task in Ok (tasks ++ [task]))
          tasks pre = Ok (tasks ++ new).
Proof.
  intros H. revert tasks. induction H as [|x pre (t & Ht) _ IH]; intros tasks.
  - exists []. simpl. by rewrite app_nil_r.
  - destruct (IH (tasks ++ [t])) as (new & Hnew). exists (t :: new).
    simpl. rewrite Ht. simpl. rewrite Hnew. by rewrite <- app_assoc.
Qed.

Lemma has_id_all_assigned (w : world) fields :
  Forall has_id fields -> exists kvs, Forall2 (assigned w) fields kvs.
Proof.
  induction 1 as [|f fields Hfid _ (kvs & IH)]; [by exists []|].
  destruct (has_id_assigned w f Hfid) as (kv & Hkv).
  exists (kv :: kvs). by constructor.
Qed.

(** The stages after their request, as a function of the answer. *)
Lemma fetch_list_tasks_answer (w : world) space tasks list_obj s lid resp :
  py_getitem list_obj "id" = Ok lid ->
  http_get w (events s) (tasks_url w lid) = Ok resp ->
  fetch_list_tasks w space tasks list_obj s
    = (let? srcs := collection resp "tasks" in
       rfold (fun tasks task =>
                let? task := flatten_task w space list_obj task in Ok (tasks ++ [task]))
             tasks srcs,
       record (EvHttp (tasks_url w lid) (Ok resp)) s).
Proof.
  intros Hlid Hr. unfold tasks_url in *.
  unfold fetch_list_tasks, mbind, get_json, lift, collection. rewrite Hlid, Hr. simpl.
  destruct (py_get resp "tasks" (PyList [])) as [v|e]; [|done]. simpl.
  by destruct (py_iter v).
Qed.

Lemma fetch_space_tasks_answer (w : world) tasks space s sid resp :
  py_getitem space "id" = Ok sid ->
  http_get w (events s) (lists_url w sid) = Ok resp ->
  fetch_space_tasks w tasks space s
    = match collection resp "lists" with
      | Ok lists =>
          mfold (fetch_list_tasks w space) tasks lists
                (record (EvHttp (lists_url w sid) (Ok resp)) s)
      | Err e => (Err e, record (EvHttp (lists_url w sid) (Ok resp)) s)
      end.
Proof.
  intros Hsid Hr. unfold lists_url in *.
  unfold fetch_space_tasks, mbind at 1 2 3 4, get_json, lift, collection.
  rewrite Hsid, Hr. simpl.
  destruct (py_get resp "lists" (PyList [])) as [v|e]; [|done]. simpl.
  by destruct (py_iter v).
Qed.

Lemma fetch_tasks_answer (w : world) wid s resp :
  http_get w (events s) (spaces_url w wid) = Ok resp ->
  fetch_tasks w wid s
    = match collection resp "spaces" with
      | Ok spaces =>
          mfold (fetch_space_tasks w) [] spaces
                (record (EvHttp (spaces_url w wid) (Ok resp)) s)
      | Err e => (Err e, record (EvHttp (spaces_url w wid) (Ok resp)) s)
      end.
Proof.
  intros Hr. unfold spaces_url in *.
  unfold fetch_tasks, mbind at 1 2 3, get_json, lift, collection.
  rewrite Hr. simpl.
  destruct (py_get resp "spaces" (PyList [])) as [v|e]; [|done]. simpl.
  by destruct (py_iter v).
Qed.

Lemma create_tables_answer (w : world) s resp :
  http_get w (events s) (custom_fields_url w (self_workspace_id w)) = Ok resp ->
  create_tables_if_not_exist w s
    = match (let? fields := collection resp "custom_fields" in
             rfold (add_custom_field w) tasks_schema fields) with
      | Ok schema =>
          create_table w schema
            (record (EvHttp (custom_fields_url w (self_workspace_id w)) (Ok resp)) s)
      | Err e =>
          (Err e, record (EvHttp (custom_fields_url w (self_workspace_id w)) (Ok resp)) s)
      end.
Proof.
  intros Hr. unfold custom_fields_url, self_workspace_id in *.
  unfold create_tables_if_not_exist, fetch_custom_fields, mbind, get_json, lift,
    collection.
  rewrite Hr. simpl.
  destruct (py_get resp "custom_fields" (PyList [])) as [v|e]; [|done]. simpl.
  destruct (py_iter v) as [fields|e]; [|done]. simpl.
  by destruct (rfold (add_custom_field w) tasks_schema fields).
Qed.

(** What [flatten_task] raises. *)
Lemma flatten_task_raises (w : world) space list_obj src e :
  entries src = Err e \/
  (exists pre f post,
     entries src = Ok (pre ++ f :: post) /\ Forall has_id pre /\
     (field_value f = Err e \/
      exists v, field_value f = Ok v /\ field_key w f = Err e)) \/
  (exists fields,
     entries src = Ok fields /\ Forall has_id fields /\
     (py_getitem space "id" = Err e \/
      has_id space /\ py_getitem list_obj "id" = Err e)) ->
  flatten_task w space list_obj src = Err e.
Proof.
  intros [H|[(pre & f & post & Hf & Hpre & Hbad)|(fields & Hf & Hids & Hctx)]].
  - unfold entries in H. unfold flatten_task.
    destruct (py_get src "custom_fields" (PyList [])) as [v|e']; simpl in *;
      [|by inversion H].
    by rewrite H.
  - unfold entries in Hf. apply rbind_Ok_inv in Hf as (cf & Hcf & Hit).
    destruct (py_get_Ok_inv _ _ _ _ Hcf) as (d & -> & _).
    unfold flatten_task. rewrite Hcf. simpl. rewrite Hit. simpl.
    destruct (has_id_all_assigned w pre Hpre) as (kvs & Hkvs).
    rewrite (rfold_app_Err _ _ pre f post _ e
               (flatten_fields_assigned w pre kvs d Hkvs)); [done|].
    unfold flatten_field. unfold field_value, field_key in Hbad.
    destruct Hbad as [Hv|(v & Hv & Hk)]; rewrite Hv; simpl; [done|].
    destruct (py_getitem f "id"); [discriminate|]. simpl. by inversion Hk.
  - unfold entries in Hf. apply rbind_Ok_inv in Hf as (cf & Hcf & Hit).
    destruct (py_get_Ok_inv _ _ _ _ Hcf) as (d & -> & _).
    unfold flatten_task. rewrite Hcf. simpl. rewrite Hit. simpl.
    destruct (has_id_all_assigned w fields Hids) as (kvs & Hkvs).
    rewrite (flatten_fields_assigned w fields kvs d Hkvs). simpl.
    destruct Hctx as [Hs|[Hs Hl]].
    + by rewrite Hs.
    + apply has_id_getitem in Hs as (sid & Hs). rewrite Hs. simpl. by rewrite Hl.
Qed.

(** C6.  (1) In every run, a call that raised is the last event before the
    error line, and what it raised is the result of the run; a run that
    raises [e] ends with the line "Error during sync: <e>" and raises [e].
    (2) An exception of the schema-build step, of the extractor or of the
    load is the exception of the run; when it is the extractor that raised,
    the run contains no load call and the rows are as the create-if-absent
    call left them.  (3) Inside the schema-build step and the extractor too,
    a call that raised is the last event and its exception the result.
    (4) The exceptions the code raises itself are not caught either.  What
    the first failing entry of a task raises, or the lookup of the id of the
    space or list, is what flattening the task raises.  What the first task
    that cannot be flattened raises is what the pass over its list raises,
    with no record kept and no request after it; likewise an answer that is
    not an object or whose collection cannot be visited, and a list or a
    space without ['id'].  What the pass over a list raises is what the pass
    over its space raises, and what the pass over a space raises is what the
    extractor raises.  What the first definition without ['type'] or ['id']
    raises is what the schema-build step raises, before any create-table
    call. *)
Theorem errors_surface_in_sync_data (w : world) (s : state) :
  (forall r s',
     sync_data w s = (r, s') ->
     exists evs,
       events s' = events s ++ evs ++
         match r with
         | Ok _ => []
         | Err e => [EvLog ERROR ("Error during sync: " +:+ str_exn w e)]
         end /\
       unhandled r evs) /\
  (forall e s1,
     create_tables_if_not_exist w (started s) = (Err e, s1) ->
     sync_data w s = (Err e, failed w e s1)) /\
  (forall s1 e s2,
     create_tables_if_not_exist w (started s) = (Ok (), s1) ->
     fetch_tasks w (self_workspace_id w) s1 = (Err e, s2) ->
     sync_data w s = (Err e, failed w e s2) /\
     (exists evs, events (failed w e s2) = events s ++ evs /\
                  Forall (fun ev => is_load ev = false) evs) /\
     tasks_rows (failed w e s2) = Some (default [] (tasks_rows s))) /\
  (forall s1 tasks s2 e s3,
     create_tables_if_not_exist w (started s) = (Ok (), s1) ->
     fetch_tasks w (self_workspace_id w) s1 = (Ok tasks, s2) ->
     load_tasks w tasks s2 = (Err e, s3) ->
     sync_data w s = (Err e, failed w e s3)) /\
  (forall r s',
     create_tables_if_not_exist w s = (r, s') ->
     exists evs, events s' = events s ++ evs /\ unhandled r evs) /\
  (forall wid r s',
     fetch_tasks w wid s = (r, s') ->
     exists evs, events s' = events s ++ evs /\ unhandled r evs) /\
  (forall space list_obj src e,
     entries src = Err e \/
     (exists pre f post,
        entries src = Ok (pre ++ f :: post) /\ Forall has_id pre /\
        (field_value f = Err e \/
         exists v, field_value f = Ok v /\ field_key w f = Err e)) \/
     (exists fields,
        entries src = Ok fields /\ Forall has_id fields /\
        (py_getitem space "id" = Err e \/
         has_id space /\ py_getitem list_obj "id" = Err e)) ->
     flatten_task w space list_obj src = Err e) /\
  (forall space tasks list_obj s0 e,
     (py_getitem list_obj "id" = Err e ->
      fetch_list_tasks w space tasks list_obj s0 = (Err e, s0)) /\
     (forall lid resp,
        py_getitem list_obj "id" = Ok lid ->
        http_get w (events s0) (tasks_url w lid) = Ok resp ->
        collection resp "tasks" = Err e \/
        (exists pre src post,
           collection resp "tasks" = Ok (pre ++ src :: post) /\
           Forall (fun x => exists t, flatten_task w space list_obj x = Ok t) pre /\
           flatten_task w space list_obj src = Err e) ->
        fetch_list_tasks w space tasks list_obj s0
          = (Err e, record (EvHttp (tasks_url w lid) (Ok resp)) s0))) /\
  (forall tasks space s0 e,
     (py_getitem space "id" = Err e ->
      fetch_space_tasks w tasks space s0 = (Err e, s0)) /\
     (forall sid resp,
        py_getitem space "id" = Ok sid ->
        http_get w (events s0) (lists_url w sid) = Ok resp ->
        (collection resp "lists" = Err e ->
         fetch_space_tasks w tasks space s0
           = (Err e, record (EvHttp (lists_url w sid) (Ok resp)) s0)) /\
        (forall pre list_obj post tasks1 s2 s3,
           collection resp "lists" = Ok (pre ++ list_obj :: post) ->
           mfold (fetch_list_tasks w space) tasks pre
                 (record (EvHttp (lists_url w sid) (Ok resp)) s0) = (Ok tasks1, s2) ->
           fetch_list_tasks w space tasks1 list_obj s2 = (Err e, s3) ->
           fetch_space_tasks w tasks space s0 = (Err e, s3)))) /\
  (forall wid s0 e resp,
     http_get w (events s0) (spaces_url w wid) = Ok resp ->
     (collection resp "spaces" = Err e ->
      fetch_tasks w wid s0 = (Err e, record (EvHttp (spaces_url w wid) (Ok resp)) s0)) /\
     (forall pre space post tasks1 s2 s3,
        collection resp "spaces" = Ok (pre ++ space :: post) ->
        mfold (fetch_space_tasks w) [] pre
              (record (EvHttp (spaces_url w wid) (Ok resp)) s0) = (Ok tasks1, s2) ->
        fetch_space_tasks w tasks1 space s2 = (Err e, s3) ->
        fetch_tasks w wid s0 = (Err e, s3))) /\
  (forall s0 e resp,
     http_get w (events s0) (custom_fields_url w (self_workspace_id w)) = Ok resp ->
     collection resp "custom_fields" = Err e \/
     (exists pre field post,
        collection resp "custom_fields" = Ok (pre ++ field :: post) /\
        Forall (fun f => has_type f /\ has_id f) pre /\
        (field_type field = Err e \/
         has_type field /\ py_getitem field "id" = Err e)) ->
     create_tables_if_not_exist w s0
       = (Err e, record (EvHttp (custom_fields_url w (self_workspace_id w)) (Ok resp)) s0)).

Proof.
  split; [|split; [|split; [|split; [|split; [|split; [|split; [|split; [|split; [|split]]]]]]]]].
  - intros r s' H. apply sync_data_run in H as (evs & E & _ & U). by exists evs.
  - intros e s1 Hc. by rewrite sync_data_stages, Hc.
  - intros s1 e s2 Hc Hf. split; [by rewrite sync_data_stages, Hc, Hf|].
    apply create_tables_Ok_inv in Hc
      as (resp & v & fields & schema & _ & _ & _ & _ & E1 & R1).
    apply fetch_tasks_run in Hf as (evs & E2 & HF & _ & R2).
    split; [|simpl; by rewrite R2, R1].
    eexists. split.
    + simpl. rewrite E2, E1. simpl. rewrite <- !app_assoc. reflexivity.
    + simpl. repeat (apply Forall_cons; split; [done|]).
      apply Forall_app. split; [|by repeat constructor].
      eapply Forall_impl; [exact HF|]. apply extractor_request_not_load.
  - intros s1 tasks s2 e s3 Hc Hf Hl. by rewrite sync_data_stages, Hc, Hf, Hl.
  - intros r s' H. apply traced_create_tables in H as (evs & E & _ & U & _).
    by exists evs.
  - intros wid r s' H. apply fetch_tasks_run in H as (evs & E & _ & U & _).
    by exists evs.
  - intros space list_obj src e. apply flatten_task_raises.
  - intros space tasks list_obj s0 e. split.
    + intros Hlid. unfold fetch_list_tasks, mbind, lift. by rewrite Hlid.
    + intros lid resp Hlid Hr Hbad.
      rewrite (fetch_list_tasks_answer w space tasks list_obj s0 lid resp Hlid Hr).
      f_equal. destruct Hbad as [Hc|(pre & src & post & Hc & Hpre & Hsrc)];
        rewrite Hc; simpl; [done|].
      destruct (flatten_all_total w space list_obj pre tasks Hpre) as (new & Hnew).
      apply (rfold_app_Err _ _ pre src post _ e Hnew). by rewrite Hsrc.
  - intros tasks space s0 e. split.
    + intros Hsid. unfold fetch_space_tasks, mbind, lift. by rewrite Hsid.
    + intros sid resp Hsid Hr.
      rewrite (fetch_space_tasks_answer w tasks space s0 sid resp Hsid Hr). split.
      * by intros ->.
      * intros pre list_obj post tasks1 s2 s3 -> Hpre Hbad.
        by apply (mfold_app_Err _ _ pre list_obj post _ tasks1 s2).
  - intros wid s0 e resp Hr. rewrite (fetch_tasks_answer w wid s0 resp Hr). split.
    + by intros ->.
    + intros pre space post tasks1 s2 s3 -> Hpre Hbad.
      by apply (mfold_app_Err _ _ pre space post _ tasks1 s2).
  - intros s0 e resp Hr Hbad. rewrite (create_tables_answer w s0 resp Hr).
    destruct Hbad as [Hc|(pre & field & post & Hc & Hpre & Hfield)];
      rewrite Hc; simpl; [done|].
    destruct (build_schema_total w pre tasks_schema Hpre) as (cols & Hcols & _).
    rewrite (rfold_app_Err _ _ pre field post _ e Hcols); [done|].
    unfold add_custom_field.
    destruct Hfield as [Hty|[(ty & Hty) Hid]]; [by rewrite Hty|].
    rewrite (field_type_spec _ _ Hty). simpl. by rewrite Hid.
Qed.

Lemma errors_surface_in_sync_data_witness :
  (exists s1 s2,
     create_tables_if_not_exist world_bad_lists (started s_init) = (Ok (), s1) /\
     fetch_tasks world_bad_lists (PyStr "W1") s1 = (Err (AttributeError TList "get"), s2) /\
     sync_data world_bad_lists s_init
       = (Err (AttributeError TList "get"),
          failed world_bad_lists (AttributeError TList "get") s2) /\
     tasks_rows (failed world_bad_lists (AttributeError TList "get") s2) = Some []) /\
  flatten_task world_bad_task (dict [("id", PyStr "S1")]) (dict [("id", PyStr "L1")])
               task_bad_entry = Err (KeyError "id") /\
  fetch_list_tasks world_bad_task (dict [("id", PyStr "S1")]) []
                   (dict [("id", PyStr "L1")]) s_init
    = (Err (KeyError "id"),
       record (EvHttp (tasks_url world_bad_task (PyStr "L1"))
                      (Ok (dict [("tasks", PyList [task_bad_entry; task_T1])]))) s_init) /\
  (sync_data world_bad_task s_init).1 = Err (KeyError "id") /\
  Forall (fun ev => is_load ev = false) (events (sync_data world_bad_task s_init).2).
Proof.
  destruct (errors_surface_in_sync_data world_bad_lists s_init)
    as (_ & _ & H & _).
  destruct (errors_surface_in_sync_data world_bad_task s_init)
    as (_ & _ & _ & _ & _ & _ & Hflat & Hlist & _).
  assert (Hbad : flatten_task world_bad_task (dict [("id", PyStr "S1")])
                   (dict [("id", PyStr "L1")]) task_bad_entry = Err (KeyError "id")).
  { apply Hflat. right. left.
    exists [], (dict [("value", PyInt 1)]), [].
    split; [vm_compute; reflexivity|]. split; [constructor|].
    right. exists (PyInt 1). split; vm_compute; reflexivity. }
  split; [|split; [exact Hbad|split; [|split]]].
  - exists (create_tables_if_not_exist world_bad_lists (started s_init)).2.
    eexists (fetch_tasks world_bad_lists (PyStr "W1") _).2.
    assert (Hc : create_tables_if_not_exist world_bad_lists (started s_init)
                 = (Ok (), (create_tables_if_not_exist world_bad_lists (started s_init)).2))
      by (vm_compute; reflexivity).
    assert (Hf : fetch_tasks world_bad_lists (self_workspace_id world_bad_lists)
                   (create_tables_if_not_exist world_bad_lists (started s_init)).2
                 = (Err (AttributeError TList "get"),
                    (fetch_tasks world_bad_lists (PyStr "W1")
                      (create_tables_if_not_exist world_bad_lists (started s_init)).2).2))
      by (vm_compute; reflexivity).
    destruct (H _ _ _ Hc Hf) as (Hs & _ & Hrows).
    split; [exact Hc|]. split; [exact Hf|]. split; [exact Hs | exact Hrows].
  - destruct (Hlist (dict [("id", PyStr "S1")]) [] (dict [("id", PyStr "L1")])
                s_init (KeyError "id")) as [_ Hl].
    apply (Hl (PyStr "L1")); [reflexivity | vm_compute; reflexivity |].
    right. exists [], task_bad_entry, [task_T1].
    split; [vm_compute; reflexivity|]. split; [constructor | exact Hbad].
  - vm_compute. reflexivity.
  - vm_compute. repeat constructor.
Defined.

(** C8, as the code has it.  A successful run is, in this order: the start
    line; the schema-build step, which is one request for the custom-field
    definitions and one create-if-absent call; the requests of the
    extractor, none of them for the custom-field definitions; for a
    non-empty record set the load of exactly the records the extractor
    returned, the wait on it and the count line; the completion line.  No
    run, successful or not, requests the custom task types. *)
Theorem sync_stages_in_order (w : world) (s : state) :
  (forall s',
     sync_data w s = (Ok (), s') ->
     exists resp schema s1 tasks s2 ex_evs,
       create_tables_if_not_exist w (started s) = (Ok (), s1) /\
       events s1 = events s ++
         [EvLog INFO "Starting ClickUp to BigQuery sync";
          EvHttp (custom_fields_url w (self_workspace_id w)) (Ok resp);
          EvBq (CreateTable "clickup_data" "tasks" schema true) None] /\
       fetch_tasks w (self_workspace_id w) s1 = (Ok tasks, s2) /\
       events s2 = events s1 ++ ex_evs /\
       Forall (fun e => extractor_request e /\
                 forall x, e <> EvHttp (custom_fields_url w (self_workspace_id w)) x)
              ex_evs /\
       events s' = events s2 ++
         match tasks with
         | [] => []
         | _ :: _ =>
             [EvBq (LoadTableFromJson (load_job_of tasks)) None;
              EvBq (JobResult (load_job_of tasks)) None;
              EvLog INFO ("Loaded " +:+ pretty (length tasks) +:+ " tasks to BigQuery")]
         end ++ [EvLog INFO "Sync completed successfully"]) /\
  (forall r s',
     sync_data w s = (r, s') ->
     exists evs,
       events s' = events s ++ evs /\
       Forall (fun e =>
                 forall x, e <> EvHttp (custom_task_types_url w (self_workspace_id w)) x)
              evs).
Proof.
  split.
  - intros s' H. rewrite sync_data_stages in H.
    destruct (create_tables_if_not_exist w (started s)) as [[[]|e] s1] eqn:Hc;
      [|discriminate].
    destruct (fetch_tasks w (self_workspace_id w) s1) as [[tasks|e] s2] eqn:Hf;
      [|discriminate].
    destruct (load_tasks w tasks s2) as [[[]|e] s3] eqn:Hl; [|discriminate].
    inversion H; subst s'; clear H.
    pose proof Hc as Hc'.
    apply create_tables_Ok_inv in Hc'
      as (resp & v & fields & schema & _ & _ & _ & _ & E1 & _).
    pose proof Hf as Hf'. apply fetch_tasks_run in Hf' as (ex_evs & E2 & HF & _ & _).
    exists resp, schema, s1, tasks, s2, ex_evs.
    split; [done|]. split; [by rewrite E1; simpl; rewrite <- app_assoc|].
    split; [done|]. split; [done|]. split.
    { eapply Forall_impl; [exact HF|]. simpl. intros e He. split; [done|].
      intros x. by apply extractor_request_not_workspace. }
    destruct tasks as [|t tasks].
    + inversion Hl; subst s3. done.
    + rewrite load_tasks_calls in Hl.
      destruct (bq_error w (events s2) _) as [e|]; [discriminate|].
      cbn [record events] in Hl.
      destruct (bq_error w (events s2 ++ _) _) as [e|]; [discriminate|].
      inversion Hl; subst s3. simpl. by rewrite <- !app_assoc.
  - intros r s' H. apply sync_data_run in H as (evs & E & HF & _).
    eexists. split; [exact E|]. apply Forall_app. split.
    + eapply Forall_impl; [exact HF|]. simpl. intros e He x.
      by apply sync_event_not_task_types.
    + destruct r; by repeat constructor.
Qed.

(** C8 as stated fails: the run over the workspace of the second scenario
    succeeds after four requests, and the task-types endpoint, which
    [fetch_custom_task_types] would request, is not among them. *)
Lemma task_types_never_fetched :
  (sync_data world_two_tasks s_init).1 = Ok () /\
  requested_urls (events (sync_data world_two_tasks s_init).2)
    = ["https://api.clickup.com/api/v2/workspace/W1/custom_fields";
       "https://api.clickup.com/api/v2/team/W1/space";
       "https://api.clickup.com/api/v2/space/S1/list";
       "https://api.clickup.com/api/v2/list/L1/task"] /\
  requested_urls (events (fetch_custom_task_types world_two_tasks (PyStr "W1") s_init).2)
    = ["https://api.clickup.com/api/v2/workspace/W1/custom_task_types"] /\
  ~ (exists url, url ∈ requested_urls (events (sync_data world_two_tasks s_init).2) /\
                 url ∈ requested_urls
                   (events (fetch_custom_task_types world_two_tasks (PyStr "W1") s_init).2)).
Proof.
  assert (H1 : requested_urls (events (sync_data world_two_tasks s_init).2)
    = ["https://api.clickup.com/api/v2/workspace/W1/custom_fields";
       "https://api.clickup.com/api/v2/team/W1/space";
       "https://api.clickup.com/api/v2/space/S1/list";
       "https://api.clickup.com/api/v2/list/L1/task"]) by (vm_compute; reflexivity).
  assert (H2 : requested_urls
                 (events (fetch_custom_task_types world_two_tasks (PyStr "W1") s_init).2)
    = ["https://api.clickup.com/api/v2/workspace/W1/custom_task_types"])
    by (vm_compute; reflexivity).
  split; [by vm_compute|]. split; [exact H1|]. split; [exact H2|].
  rewrite H1, H2. intros (url & Hin & Hurl).
  apply list_elem_of_singleton in Hurl. subst url.
  repeat (apply elem_of_cons in Hin as [Hin|Hin]; [discriminate|]).
  by apply elem_of_nil in Hin.
Qed.

Lemma sync_stages_in_order_witness :
  exists s',
    sync_data world_two_tasks s_init = (Ok (), s') /\
    exists evs,
      events s' = events s_init ++ evs /\
      Forall (fun e => forall x,
                e <> EvHttp (custom_task_types_url world_two_tasks
                               (self_workspace_id world_two_tasks)) x) evs.
Proof.
  exists (sync_data world_two_tasks s_init).2.
  assert (H : sync_data world_two_tasks s_init
              = (Ok (), (sync_data world_two_tasks s_init).2))
    by (vm_compute; reflexivity).
  split; [exact H|].
  exact (proj2 (sync_stages_in_order world_two_tasks s_init) _ _ H).
Defined.

(** C9.  An answer that is a JSON object without the expected collection
    key is read as an empty collection, and the stage that asked goes on
    without an exception: (1) without ['custom_fields'], the definitions
    are the empty list and the schema-build step is the create-if-absent
    call with the base schema; (2) without ['spaces'], the extractor returns
    no record after that one request, exactly as it does for an empty
    ['spaces'] list; (3) without ['lists'], the pass over that space adds no
    record after that one request; (4) without ['tasks'], the pass over that
    list adds no record after that one request. *)
Theorem missing_collection_key_is_empty (w : world) :
  (forall s d,
     http_get w (events s) (custom_fields_url w (self_workspace_id w)) = Ok (PyDict d) ->
     d !! "custom_fields" = None ->
     let s1 := record (EvHttp (custom_fields_url w (self_workspace_id w)) (Ok (PyDict d))) s in
     fetch_custom_fields w (self_workspace_id w) s = (Ok (PyList []), s1) /\
     create_tables_if_not_exist w s = create_table w tasks_schema s1) /\
  (forall wid s d,
     http_get w (events s) (spaces_url w wid) = Ok (PyDict d) ->
     d !! "spaces" = None \/ d !! "spaces" = Some (PyList []) ->
     fetch_tasks w wid s
       = (Ok [], record (EvHttp (spaces_url w wid) (Ok (PyDict d))) s)) /\
  (forall tasks space sid s d,
     py_getitem space "id" = Ok sid ->
     http_get w (events s) (lists_url w sid) = Ok (PyDict d) ->
     d !! "lists" = None ->
     fetch_space_tasks w tasks space s
       = (Ok tasks, record (EvHttp (lists_url w sid) (Ok (PyDict d))) s)) /\
  (forall space tasks list_obj lid s d,
     py_getitem list_obj "id" = Ok lid ->
     http_get w (events s) (tasks_url w lid) = Ok (PyDict d) ->
     d !! "tasks" = None ->
     fetch_list_tasks w space tasks list_obj s
       = (Ok tasks, record (EvHttp (tasks_url w lid) (Ok (PyDict d))) s)).
Proof.
  split; [|split; [|split]].
  - intros s d Hr Hd s1. subst s1. unfold custom_fields_url, self_workspace_id in *.
    assert (Hf : fetch_custom_fields w (env_value (workspace_id w)) s
              = (Ok (PyList []),
                 record (EvHttp (base_url +:+ "/workspace/" +:+
                                 py_str w (env_value (workspace_id w)) +:+
                                 "/custom_fields") (Ok (PyDict d))) s)).
    { unfold fetch_custom_fields, mbind, get_json, lift. rewrite Hr. simpl.
      by rewrite Hd. }
    split; [exact Hf|].
    unfold create_tables_if_not_exist. unfold mbind at 1. by rewrite Hf.
  - intros wid s d Hr Hd. by apply fetch_tasks_no_spaces.
  - intros tasks space sid s d Hsid Hr Hd. unfold lists_url in *.
    unfold fetch_space_tasks, mbind, get_json, lift. rewrite Hsid, Hr. simpl.
    by rewrite Hd.
  - intros space tasks list_obj lid s d Hlid Hr Hd. unfold tasks_url in *.
    unfold fetch_list_tasks, mbind, get_json, lift. rewrite Hlid, Hr. simpl.
    by rewrite Hd.
Qed.

Lemma missing_collection_key_is_empty_witness :
  http_get world_no_keys (events s_init)
    (spaces_url world_no_keys (PyStr "W1")) = Ok (PyDict ∅) /\
  fetch_tasks world_no_keys (PyStr "W1") s_init
    = (Ok [], record (EvHttp (spaces_url world_no_keys (PyStr "W1")) (Ok (PyDict ∅)))
                     s_init) /\
  fetch_space_tasks world_no_keys [] (dict [("id", PyStr "S1")]) s_init
    = (Ok [], record (EvHttp (lists_url world_no_keys (PyStr "S1")) (Ok (PyDict ∅)))
                     s_init) /\
  fetch_list_tasks world_no_keys PyNone [] (dict [("id", PyStr "L1")]) s_init
    = (Ok [], record (EvHttp (tasks_url world_no_keys (PyStr "L1")) (Ok (PyDict ∅)))
                     s_init) /\
  (sync_data world_no_keys s_init).1 = Ok ().
Proof.
  destruct (missing_collection_key_is_empty world_no_keys) as (_ & H2 & H3 & H4).
  assert (Hr : http_get world_no_keys (events s_init)
                 (spaces_url world_no_keys (PyStr "W1")) = Ok (PyDict ∅))
    by (vm_compute; reflexivity).
  split; [exact Hr|]. split; [|split; [|split]].
  - apply H2; [exact Hr | left; reflexivity].
  - apply H3; [reflexivity | vm_compute; reflexivity | reflexivity].
  - apply H4; [reflexivity | vm_compute; reflexivity | reflexivity].
  - vm_compute; reflexivity.
Defined.

(** * Further properties of the code *)

(** ** The two metadata requests *)

Lemma metadata_fetch_result (w : world) url key s :
  let r := http_get w (events s) url in
  (let* response := get_json w url in lift (py_get response key (PyList []))) s
    = (match r with
       | Ok (PyDict d) => Ok (default (PyList []) (d !! key))
       | Ok v => Err (AttributeError (type_of v) "get")
       | Err e => Err e
       end, record (EvHttp url r) s).
Proof.
  intros r. unfold mbind, get_json, lift. fold r.
  destruct r as [v|e]; [|done]. by destruct v; simpl; try destruct (d !! key).
Qed.

(** X1.  [fetch_custom_fields] and [fetch_custom_task_types] each make
    exactly one request and nothing else, to two endpoints that differ for
    every workspace id, and leave the table alone.  For an answer that is
    an object the result is what it holds under ['custom_fields'] (resp.
    ['custom_task_types']), whatever that is, and the empty list when the
    key is missing; for an answer that is not an object the call raises
    [AttributeError]; an exception of the request is raised unchanged. *)
Theorem metadata_fetchers (w : world) (wid : pyval) (s : state) :
  custom_fields_url w wid <> custom_task_types_url w wid /\
  (forall fetch url key,
     (fetch = fetch_custom_fields w wid /\ url = custom_fields_url w wid /\
      key = "custom_fields") \/
     (fetch = fetch_custom_task_types w wid /\ url = custom_task_types_url w wid /\
      key = "custom_task_types") ->
     exists r,
       r = http_get w (events s) url /\
       (fetch s).2 = record (EvHttp url r) s /\
       tasks_rows (fetch s).2 = tasks_rows s /\
       (forall d x, r = Ok (PyDict d) -> d !! key = Some x -> (fetch s).1 = Ok x) /\
       (forall d, r = Ok (PyDict d) -> d !! key = None -> (fetch s).1 = Ok (PyList [])) /\
       (forall v, r = Ok v -> type_of v <> TDict ->
                  (fetch s).1 = Err (AttributeError (type_of v) "get")) /\
       (forall e, r = Err e -> (fetch s).1 = Err e)).
Proof.
  split.
  { unfold custom_fields_url, custom_task_types_url. intros H.
    apply (inj (String.app base_url)) in H.
    apply (inj (String.app "/workspace/")) in H.
    apply (inj (String.app (py_str w wid))) in H. discriminate. }
  intros fetch url key Hcase.
  assert (Hf : fetch s
    = (match http_get w (events s) url with
       | Ok (PyDict d) => Ok (default (PyList []) (d !! key))
       | Ok v => Err (AttributeError (type_of v) "get")
       | Err e => Err e
       end, record (EvHttp url (http_get w (events s) url)) s)).
  { destruct Hcase as [(-> & -> & ->)|(-> & -> & ->)]; apply metadata_fetch_result. }
  exists (http_get w (events s) url). rewrite Hf. simpl.
  split; [done|]. split; [done|]. split; [done|].
  split; [by intros d x -> ->|]. split; [by intros d -> ->|].
  split; [|by intros e ->].
  intros v -> Hv. by destruct v.
Qed.

Lemma metadata_fetchers_witness :
  (fetch_custom_task_types world_no_keys (PyStr "W1") s_init).1
    = Err (Raised "404 Client Error") /\
  (fetch_custom_fields world_no_keys (PyStr "W1") s_init).1 = Ok (PyList []).
Proof.
  destruct (metadata_fetchers world_no_keys (PyStr "W1") s_init) as [_ H].
  split.
  - destruct (H (fetch_custom_task_types world_no_keys (PyStr "W1")) _ _
                (or_intror (conj eq_refl (conj eq_refl eq_refl))))
      as (r & Hr & _ & _ & _ & _ & _ & He).
    apply He. rewrite Hr. vm_compute. reflexivity.
  - destruct (H (fetch_custom_fields world_no_keys (PyStr "W1")) _ _
                (or_introl (conj eq_refl (conj eq_refl eq_refl))))
      as (r & Hr & _ & _ & _ & Hn & _ & _).
    apply (Hn ∅); [rewrite Hr; vm_compute; reflexivity | reflexivity].
Defined.

(** ** Collections that are not iterable *)

(** X2.  The default of [.get(key, [])] covers a missing key only.  When
    the answer holds under the key a value a [for] loop cannot visit
    ([null], a number, a boolean), the stage raises the [TypeError] of the
    loop right after its one request: the schema-build step without any
    create-table call, the extractor, the pass over a space, the pass over a
    list; and a task whose ['custom_fields'] is such a value cannot be
    flattened. *)
Theorem non_iterable_collection_raises (w : world) (v : pyval) (e : exn) :
  py_iter v = Err e ->
  (forall s d,
     http_get w (events s) (custom_fields_url w (self_workspace_id w)) = Ok (PyDict d) ->
     d !! "custom_fields" = Some v ->
     create_tables_if_not_exist w s
       = (Err e, record (EvHttp (custom_fields_url w (self_workspace_id w))
                                (Ok (PyDict d))) s)) /\
  (forall wid s d,
     http_get w (events s) (spaces_url w wid) = Ok (PyDict d) ->
     d !! "spaces" = Some v ->
     fetch_tasks w wid s = (Err e, record (EvHttp (spaces_url w wid) (Ok (PyDict d))) s)) /\
  (forall tasks space sid s d,
     py_getitem space "id" = Ok sid ->
     http_get w (events s) (lists_url w sid) = Ok (PyDict d) ->
     d !! "lists" = Some v ->
     fetch_space_tasks w tasks space s
       = (Err e, record (EvHttp (lists_url w sid) (Ok (PyDict d))) s)) /\
  (forall space tasks list_obj lid s d,
     py_getitem list_obj "id" = Ok lid ->
     http_get w (events s) (tasks_url w lid) = Ok (PyDict d) ->
     d !! "tasks" = Some v ->
     fetch_list_tasks w space tasks list_obj s
       = (Err e, record (EvHttp (tasks_url w lid) (Ok (PyDict d))) s)) /\
  (forall space list_obj d,
     d !! "custom_fields" = Some v ->
     flatten_task w space list_obj (PyDict d) = Err e).
Proof.
  intros Hv. split; [|split; [|split; [|split]]].
  - intros s d Hr Hd. unfold custom_fields_url, self_workspace_id in *.
    unfold create_tables_if_not_exist, fetch_custom_fields, mbind, get_json, lift.
    rewrite Hr. simpl. rewrite Hd. simpl. by rewrite Hv.
  - intros wid s d Hr Hd. unfold spaces_url in *.
    unfold fetch_tasks, mbind, get_json, lift. rewrite Hr. simpl. rewrite Hd. simpl. by rewrite Hv.
  - intros tasks space sid s d Hsid Hr Hd. unfold lists_url in *.
    unfold fetch_space_tasks, mbind, get_json, lift. rewrite Hsid, Hr. simpl.
    rewrite Hd. simpl. by rewrite Hv.
  - intros space tasks list_obj lid s d Hlid Hr Hd. unfold tasks_url in *.
    unfold fetch_list_tasks, mbind, get_json, lift. rewrite Hlid, Hr. simpl.
    rewrite Hd. simpl. by rewrite Hv.
  - intros space list_obj d Hd. unfold flatten_task. simpl. rewrite Hd. simpl. by rewrite Hv.
Qed.

Lemma non_iterable_collection_raises_witness :
  py_iter PyNone = Err (TypeError TNone) /\
  fetch_tasks world_null_collections (PyStr "W1") s_init
    = (Err (TypeError TNone),
       record (EvHttp (spaces_url world_null_collections (PyStr "W1"))
                      (Ok (dict [("spaces", PyNone)]))) s_init) /\
  (sync_data world_null_collections s_init).1 = Err (TypeError TNone).
Proof.
  split; [reflexivity|]. split; [|vm_compute; reflexivity].
  destruct (non_iterable_collection_raises world_null_collections PyNone
              (TypeError TNone) eq_refl) as (_ & H & _).
  apply H; vm_compute; reflexivity.
Defined.

(** ** The names of the columns *)

Lemma column_of_name (w : world) field col :
  column_of w field col -> field_key w field = Ok (sf_name col).
Proof.
  intros (ty & fid & _ & Hid & Hname & _). unfold field_key. by rewrite Hid, Hname.
Qed.

Lemma custom_name_not_base x : "custom_field_" +:+ x ∉ sf_name <$> tasks_schema.
Proof.
  intros H. simpl in H.
  repeat (apply elem_of_cons in H as [H|H]; [inversion H|]).
  by apply elem_of_nil in H.
Qed.

(** X3.  The schema the loop of [create_tables_if_not_exist] builds has the
    ten base columns first, then one column per definition, each named with
    the prefix [custom_field_] and so never with the name of a base column.
    When no two definitions have the same column key, no two columns of the
    schema have the same name. *)
Theorem schema_column_names (w : world) fields schema :
  rfold (add_custom_field w) tasks_schema fields = Ok schema ->
  length schema = 10 + length fields /\
  take 10 schema = tasks_schema /\
  Forall (fun col => (exists x, sf_name col = "custom_field_" +:+ x) /\
                     sf_name col ∉ sf_name <$> tasks_schema) (drop 10 schema) /\
  ((forall i j f g, fields !! i = Some f -> fields !! j = Some g ->
                    field_key w f = field_key w g -> i = j) ->
   NoDup (sf_name <$> schema)).
Proof.
  intros H. apply build_schema_Ok_inv in H as (cols & -> & Hcols).
  assert (Hnames : Forall (fun col => (exists x, sf_name col = "custom_field_" +:+ x) /\
                     sf_name col ∉ sf_name <$> tasks_schema) cols).
  { apply Forall_forall. intros col Hin.
    apply list_elem_of_lookup_1 in Hin as (i & Hi).
    destruct (Forall2_lookup_r _ _ _ _ _ Hcols Hi) as (f & _ & Hcol).
    apply column_of_name in Hcol.
    destruct (field_key_prefix _ _ _ Hcol) as (x & Hx).
    split; [by exists x|]. rewrite Hx. apply custom_name_not_base. }
  split; [|split; [|split]].
  - rewrite length_app. by rewrite <- (Forall2_length _ _ _ Hcols).
  - done.
  - done.
  - intros Hdistinct. rewrite fmap_app. apply NoDup_app. split; [|split].
    + simpl. repeat (apply NoDup_cons; split;
        [intros Hin; repeat (apply elem_of_cons in Hin as [Hin|Hin]; [discriminate|]);
         by apply elem_of_nil in Hin|]).
      apply NoDup_nil_2.
    + intros name Hbase Hcol.
      apply list_elem_of_fmap in Hcol as (col & -> & Hcol).
      rewrite Forall_forall in Hnames. by destruct (Hnames col Hcol) as [_ Hn].
    + apply NoDup_alt. intros i j name Hi Hj.
      rewrite list_lookup_fmap in Hi, Hj.
      destruct (cols !! i) as [ci|] eqn:Eci; [|discriminate].
      destruct (cols !! j) as [cj|] eqn:Ecj; [|discriminate].
      simpl in Hi, Hj. inversion Hi as [Hni]. inversion Hj as [Hnj].
      destruct (Forall2_lookup_r _ _ _ _ _ Hcols Eci) as (f & Hf & Hcf).
      destruct (Forall2_lookup_r _ _ _ _ _ Hcols Ecj) as (g & Hg & Hcg).
      apply column_of_name in Hcf, Hcg.
      apply (Hdistinct i j f g Hf Hg). by rewrite Hcf, Hcg, Hni, Hnj.
Qed.

Lemma schema_column_names_witness :
  exists schema,
    rfold (add_custom_field world_two_tasks) tasks_schema
          [dict [("id", PyStr "F1"); ("type", PyStr "number")];
           dict [("id", PyStr "F2"); ("type", PyStr "date")]] = Ok schema /\
    length schema = 12 /\
    NoDup (sf_name <$> schema).
Proof.
  eexists. split; [vm_compute; reflexivity|].
  destruct (schema_column_names world_two_tasks
              [dict [("id", PyStr "F1"); ("type", PyStr "number")];
               dict [("id", PyStr "F2"); ("type", PyStr "date")]] _ eq_refl)
    as (Hlen & _ & _ & Hnodup).
  split; [exact Hlen|]. apply Hnodup.
  intros [|[|i]] [|[|j]] f g Hf Hg Hk; try done; simpl in Hf, Hg;
    inversion Hf; inversion Hg; subst; vm_compute in Hk; discriminate.
Defined.

(** ** When a task can be flattened, and what flattening keeps *)

(** X4.  [flatten_task] succeeds exactly when the task is an object whose
    custom-fields collection can be visited and holds only objects with an
    ['id'], and the space and the list each are an object with an ['id'].
    (A missing ['value'] or ['custom_fields'] is no obstacle.) *)
Theorem flatten_task_succeeds_iff (w : world) (space list_obj src : pyval) :
  (exists t, flatten_task w space list_obj src = Ok t) <->
  (exists fields, entries src = Ok fields /\ Forall has_id fields) /\
  has_id space /\ has_id list_obj.
Proof.
  split.
  - intros (t & H). apply flatten_task_Ok_inv in H
      as (d & fields & kvs & sid & lid & -> & Hf & Hkvs & Hsid & Hlid & _).
    split; [|split].
    + exists fields. split; [done|]. apply Forall_forall. intros f Hin.
      apply list_elem_of_lookup_1 in Hin as (i & Hi).
      destruct (Forall2_lookup_l _ _ _ _ _ Hkvs Hi) as (kv & _ & Hkv).
      by eapply assigned_has_id.
    + apply has_id_getitem. eauto.
    + apply has_id_getitem. eauto.
  - intros ((fields & Hf & Hids) & Hs & Hl).
    apply has_id_getitem in Hs as (sid & Hsid). apply has_id_getitem in Hl as (lid & Hlid).
    assert (Hkvs : exists kvs, Forall2 (assigned w) fields kvs).
    { clear Hf. induction Hids as [|f fields Hfid _ (kvs & IH)]; [by exists []|].
      destruct (has_id_assigned w f Hfid) as (kv & Hkv).
      exists (kv :: kvs). by constructor. }
    destruct Hkvs as (kvs & Hkvs).
    unfold entries in Hf. apply rbind_Ok_inv in Hf as (cf & Hcf & Hit).
    destruct (py_get_Ok_inv _ _ _ _ Hcf) as (d & -> & _).
    eexists. unfold flatten_task. rewrite Hcf. simpl. rewrite Hit. simpl.
    rewrite (flatten_fields_assigned w fields kvs d Hkvs). simpl.
    rewrite Hsid. simpl. rewrite Hlid. simpl. reflexivity.
Qed.

Lemma flatten_task_succeeds_iff_witness :
  exists t, flatten_task world_two_tasks (dict [("id", PyStr "S1")])
              (dict [("id", PyStr "L1")]) task_T2 = Ok t.
Proof.
  apply flatten_task_succeeds_iff. split; [|split].
  - eexists. split; [vm_compute; reflexivity|].
    constructor; [|constructor]. eexists. split; [reflexivity|].
    vm_compute. eauto.
  - eexists. split; [reflexivity|]. vm_compute. eauto.
  - eexists. split; [reflexivity|]. vm_compute. eauto.
Defined.

(** X5.  Flattening removes nothing: the record has every attribute of the
    source task, the ['custom_fields'] collection among them exactly as it
    was, and its attributes are those of the source, ['space_id'],
    ['list_id'] and the keys of the entries, no others. *)
Theorem flatten_task_keeps_attributes (w : world) (space list_obj src t : pyval) :
  flatten_task w space list_obj src = Ok t ->
  exists d d' fields,
    src = PyDict d /\ t = PyDict d' /\ entries src = Ok fields /\
    d' !! "custom_fields" = d !! "custom_fields" /\
    (forall k, is_Some (d !! k) -> is_Some (d' !! k)) /\
    (forall k, is_Some (d' !! k) <->
       is_Some (d !! k) \/ k = "space_id" \/ k = "list_id" \/
       exists f, f ∈ fields /\ field_key w f = Ok k).
Proof.
  intros H. apply flatten_task_Ok_inv in H
    as (d & fields & kvs & sid & lid & -> & Hf & Hkvs & _ & _ & ->).
  eexists d, _, fields. split; [done|]. split; [reflexivity|]. split; [done|].
  assert (Hdom : forall k, is_Some ((<["list_id" := lid]>
                     (<["space_id" := sid]> (foldl assign d kvs))) !! k) <->
       is_Some (d !! k) \/ k = "space_id" \/ k = "list_id" \/
       exists f, f ∈ fields /\ field_key w f = Ok k).
  { intros k.
    destruct (decide (k = "list_id")) as [->|Hl].
    { rewrite lookup_insert_eq. split; [auto | by eauto]. }
    rewrite lookup_insert_ne by done.
    destruct (decide (k = "space_id")) as [->|Hs].
    { rewrite lookup_insert_eq. split; [auto | by eauto]. }
    rewrite lookup_insert_ne by done.
    destruct (decide (k ∈ kvs.*1)) as [Hin|Hnin].
    - destruct (lookup_assign_in d kvs k Hin) as (v & _ & ->).
      split; [|by eauto]. intros _. do 3 right.
      by apply (assigned_key_in w fields kvs).
    - rewrite lookup_assign_notin by done. split; [auto|].
      intros [H|[H|[H|(f & Hfin & Hk)]]]; try done.
      exfalso. apply Hnin.
      apply list_elem_of_lookup_1 in Hfin as (i & Hi).
      destruct (Forall2_lookup_l _ _ _ _ _ Hkvs Hi) as ([k' v'] & Hkv & Hk' & _).
      simpl in Hk'. rewrite Hk in Hk'. inversion Hk'; subst k'.
      apply list_elem_of_fmap. exists (k, v'). split; [done|].
      by eapply list_elem_of_lookup_2. }
  split; [|split].
  - rewrite !lookup_insert_ne by done. apply lookup_assign_notin.
    apply (assigned_keys_notin w fields kvs _ Hkvs). intros x Hx.
    by apply (custom_field_key_neq_custom_fields x).
  - intros k Hk. apply Hdom. by left.
  - exact Hdom.
Qed.

Lemma flatten_task_keeps_attributes_witness :
  flatten_task world_two_tasks (dict [("id", PyStr "S1")]) (dict [("id", PyStr "L1")])
               task_T2 = Ok row_T2 /\
  exists d d', task_T2 = PyDict d /\ row_T2 = PyDict d' /\
               d' !! "custom_fields" = d !! "custom_fields".
Proof.
  assert (H : flatten_task world_two_tasks (dict [("id", PyStr "S1")])
                (dict [("id", PyStr "L1")]) task_T2 = Ok row_T2)
    by (vm_compute; reflexivity).
  split; [exact H|].
  destruct (flatten_task_keeps_attributes _ _ _ _ _ H)
    as (d & d' & fields & Hd & Hd' & _ & Hcf & _).
  by exists d, d'.
Defined.

Lemma lookup_assign_same (d1 d2 : gmap string pyval) kvs k :
  k ∈ kvs.*1 -> foldl assign d1 kvs !! k = foldl assign d2 kvs !! k.
Proof.
  induction kvs as [|[k' v'] kvs IH] using rev_ind; intros Hk.
  { by apply elem_of_nil in Hk. }
  rewrite fmap_app in Hk. rewrite !foldl_app. simpl. unfold assign at 1 3. simpl.
  destruct (decide (k = k')) as [->|Hne].
  - by rewrite !lookup_insert_eq.
  - rewrite !lookup_insert_ne by done.
    apply elem_of_app in Hk as [Hk|Hk]; [by apply IH|].
    simpl in Hk. by apply list_elem_of_singleton in Hk.
Qed.

Lemma assigned_functional (w : world) fields kvs1 kvs2 :
  Forall2 (assigned w) fields kvs1 -> Forall2 (assigned w) fields kvs2 -> kvs1 = kvs2.
Proof.
  intros H. revert kvs2.
  induction H as [|f [k1 v1] fields kvs1 [Hk1 Hv1] _ IH]; intros kvs2 H2.
  - by inversion H2.
  - inversion H2 as [|f' [k2 v2] fields' kvs2' [Hk2 Hv2] Hrest]; subst.
    simpl in *. rewrite Hk1 in Hk2. rewrite Hv1 in Hv2.
    inversion Hk2; inversion Hv2; subst. f_equal. by apply IH.
Qed.

(** X6.  Flattening is idempotent: a record the extractor made, flattened
    again under the same space and list, is that record. *)
Theorem flatten_task_idempotent (w : world) (space list_obj src t : pyval) :
  flatten_task w space list_obj src = Ok t ->
  flatten_task w space list_obj t = Ok t.
Proof.
  intros H. pose proof (flatten_task_entries w _ _ _ _ H) as He.
  apply flatten_task_Ok_inv in H
    as (d & fields & kvs & sid & lid & -> & Hf & Hkvs & Hsid & Hlid & ->).
  rewrite Hf in He. unfold entries in He.
  apply rbind_Ok_inv in He as (cf & Hcf & Hit).
  unfold flatten_task. rewrite Hcf. simpl. rewrite Hit. simpl.
  rewrite (flatten_fields_assigned w fields kvs _ Hkvs). simpl.
  rewrite Hsid. simpl. rewrite Hlid. simpl. do 2 f_equal.
  apply map_eq. intros k.
  destruct (decide (k = "list_id")) as [->|Hl]; [by rewrite !lookup_insert_eq|].
  rewrite !(lookup_insert_ne _ "list_id") by done.
  destruct (decide (k = "space_id")) as [->|Hs]; [by rewrite !lookup_insert_eq|].
  rewrite !(lookup_insert_ne _ "space_id") by done.
  destruct (decide (k ∈ kvs.*1)) as [Hin|Hnin].
  - by apply lookup_assign_same.
  - rewrite lookup_assign_notin by done.
    by rewrite !lookup_insert_ne by done.
Qed.

Lemma flatten_task_idempotent_witness :
  flatten_task world_two_tasks (dict [("id", PyStr "S1")]) (dict [("id", PyStr "L1")])
               task_T2 = Ok row_T2 /\
  flatten_task world_two_tasks (dict [("id", PyStr "S1")]) (dict [("id", PyStr "L1")])
               row_T2 = Ok row_T2.
Proof.
  assert (H : flatten_task world_two_tasks (dict [("id", PyStr "S1")])
                (dict [("id", PyStr "L1")]) task_T2 = Ok row_T2)
    by (vm_compute; reflexivity).
  split; [exact H|]. exact (flatten_task_idempotent _ _ _ _ _ H).
Defined.

(** ** The requests of the extractor *)

Lemma fetch_lists_passes (w : world) space lists tasks s tasks' s' :
  mfold (fetch_list_tasks w space) tasks lists s = (Ok tasks', s') ->
  exists passes,
    Forall2 (list_pass w space) lists passes /\
    events s' = events s ++ passes.*1 /\
    tasks' = tasks ++ concat passes.*2.
Proof.
  revert tasks s. induction lists as [|list_obj lists IH]; simpl; intros tasks s H.
  - inversion H; subst. exists []. simpl. by rewrite !app_nil_r.
  - apply mbind_Ok_inv in H as (tasks1 & s1 & H1 & H).
    apply fetch_list_tasks_Ok_inv in H1
      as (lid & resp & v & srcs & new1 & Hlid & -> & Hv & Hsrcs & -> & Hnew1).
    apply IH in H as (passes & Hpasses & E & ->).
    exists ((EvHttp (tasks_url w lid) (Ok resp), new1) :: passes).
    split; [|split].
    + constructor; [|done]. by exists lid, resp, v, srcs.
    + rewrite E. simpl. by rewrite <- app_assoc.
    + simpl. by rewrite app_assoc.
Qed.

(** A successful pass over a space, request by request. *)
Lemma fetch_space_tasks_passes (w : world) tasks space s tasks' s' :
  fetch_space_tasks w tasks space s = (Ok tasks', s') ->
  exists sid resp v lists passes,
    py_getitem space "id" = Ok sid /\
    http_get w (events s) (lists_url w sid) = Ok resp /\
    py_get resp "lists" (PyList []) = Ok v /\
    py_iter v = Ok lists /\
    Forall2 (list_pass w space) lists passes /\
    events s' = events s ++ EvHttp (lists_url w sid) (Ok resp) :: passes.*1 /\
    tasks' = tasks ++ concat passes.*2.
Proof.
  unfold fetch_space_tasks. intros H.
  apply mbind_Ok_inv in H as (sid & s0 & H0 & H). apply lift_inv in H0 as [Hsid ->].
  apply mbind_Ok_inv in H as (resp & s1 & H1 & H). apply get_json_inv in H1 as [Hr ->].
  apply mbind_Ok_inv in H as (v & s2 & H2 & H). apply lift_inv in H2 as [Hv ->].
  apply mbind_Ok_inv in H as (lists & s3 & H3 & H). apply lift_inv in H3 as [Hlists ->].
  apply fetch_lists_passes in H as (passes & Hpasses & E & ->).
  exists sid, resp, v, lists, passes.
  split; [done|]. split; [done|]. split; [done|]. split; [done|].
  split; [done|]. split; [|done].
  rewrite E. simpl. rewrite <- app_assoc. simpl. by rewrite Hr.
Qed.

(** X7.  A successful pass over a space is one lists request, then exactly
    one tasks request per list of the answer, in the order of the answer
    (no second page, no retry); the records it appends are, list after
    list, one record per task of each answer in order, none dropped and
    none merged, after the records collected before. *)
Theorem one_tasks_request_per_list (w : world) tasks space s tasks' s' :
  fetch_space_tasks w tasks space s = (Ok tasks', s') ->
  exists sid resp v lists passes,
    py_getitem space "id" = Ok sid /\
    http_get w (events s) (lists_url w sid) = Ok resp /\
    py_get resp "lists" (PyList []) = Ok v /\
    py_iter v = Ok lists /\
    Forall2 (list_pass w space) lists passes /\
    events s' = events s ++ EvHttp (lists_url w sid) (Ok resp) :: passes.*1 /\
    tasks' = tasks ++ concat passes.*2.
Proof.
  unfold fetch_space_tasks. intros H.
  apply mbind_Ok_inv in H as (sid & s0 & H0 & H). apply lift_inv in H0 as [Hsid ->].
  apply mbind_Ok_inv in H as (resp & s1 & H1 & H). apply get_json_inv in H1 as [Hr ->].
  apply mbind_Ok_inv in H as (v & s2 & H2 & H). apply lift_inv in H2 as [Hv ->].
  apply mbind_Ok_inv in H as (lists & s3 & H3 & H). apply lift_inv in H3 as [Hlists ->].
  apply fetch_lists_passes in H as (passes & Hpasses & E & ->).
  exists sid, resp, v, lists, passes.
  split; [done|]. split; [done|]. split; [done|]. split; [done|].
  split; [done|]. split; [|done].
  rewrite E. simpl. rewrite <- app_assoc. simpl. by rewrite Hr.
Qed.

Lemma one_tasks_request_per_list_witness :
  exists s',
    fetch_space_tasks world_two_tasks [] (dict [("id", PyStr "S1")]) s_init
      = (Ok [row_T1; row_T2], s') /\
    exists passes : list (event * list pyval),
      events s' = events s_init ++
        EvHttp (lists_url world_two_tasks (PyStr "S1"))
               (Ok (dict [("lists", PyList [dict [("id", PyStr "L1")]])]))
        :: passes.*1 /\
      length passes = 1.
Proof.
  eexists. split; [vm_compute; reflexivity|].
  destruct (one_tasks_request_per_list world_two_tasks [] (dict [("id", PyStr "S1")])
              s_init [row_T1; row_T2] _ eq_refl)
    as (sid & resp & v & lists & passes & Hsid & Hr & Hv & Hl & Hp & E & _).
  vm_compute in Hsid. inversion Hsid; subst sid; clear Hsid.
  vm_compute in Hr. inversion Hr; subst resp; clear Hr.
  vm_compute in Hv. inversion Hv; subst v; clear Hv.
  vm_compute in Hl. inversion Hl; subst lists; clear Hl.
  exists passes. split; [exact E|].
  by rewrite <- (Forall2_length _ _ _ Hp).
Defined.

Lemma extractor_request_no_log evs :
  Forall extractor_request evs -> log_lines evs = [].
Proof.
  induction 1 as [|e evs (path & r & -> & _) _ IH]; [done|]. simpl. exact IH.
Qed.

(** X8.  Whatever its result, the extractor begins with the spaces
    request; all its events are requests, each to a spaces, lists or tasks
    endpoint; it writes no log line, makes no warehouse call, and leaves the
    rows of the table as they were. *)
Theorem extractor_only_requests (w : world) (wid : pyval) s r s' :
  fetch_tasks w wid s = (r, s') ->
  exists rest,
    let evs := EvHttp (spaces_url w wid) (http_get w (events s) (spaces_url w wid))
               :: rest in
    events s' = events s ++ evs /\
    Forall extractor_request evs /\
    Forall (fun e => is_bq e = false) evs /\
    log_lines evs = [] /\
    tasks_rows s' = tasks_rows s.
Proof.
  intros H.
  assert (Hshape : exists rest,
    events s' = events s ++
      EvHttp (spaces_url w wid) (http_get w (events s) (spaces_url w wid)) :: rest /\
    Forall extractor_request
      (EvHttp (spaces_url w wid) (http_get w (events s) (spaces_url w wid)) :: rest) /\
    tasks_rows s' = tasks_rows s).
  { assert (Hfirst : forall x, extractor_request (EvHttp (spaces_url w wid) x)).
    { intros x. exists ("/team/" +:+ py_str w wid +:+ "/space"), x. split; [done|]. eauto. }
    unfold fetch_tasks in H. fold (spaces_url w wid) in H.
    apply mbind_inv in H as [(resp & s1 & H1 & H)|(e & H1 & ->)].
    - apply get_json_inv in H1 as [Hr ->].
      assert (Ht : traced extractor_request
                (let* spaces := lift (py_get resp "spaces" (PyList [])) in
                 let* spaces := lift (py_iter spaces) in
                 mfold (fetch_space_tasks w) [] spaces)).
      { apply traced_mbind; [apply traced_lift | intros v].
        apply traced_mbind; [apply traced_lift | intros xs].
        apply traced_mfold. intros a b. apply traced_fetch_space_tasks. }
      destruct (Ht _ _ _ H) as (rest & E & F & _ & R).
      exists rest. split; [|split].
      + rewrite E. simpl. rewrite <- app_assoc. simpl. by rewrite Hr.
      + by constructor.
      + rewrite R; [done|]. eapply Forall_impl; [exact F|].
        apply extractor_request_not_bq.
    - apply get_json_inv in H1 as [Hr ->]. exists []. split; [|split].
      + simpl. by rewrite Hr.
      + by constructor.
      + done. }
  destruct Hshape as (rest & E & F & R). exists rest. simpl.
  split; [done|]. split; [done|]. split; [|split; [|done]].
  - eapply Forall_impl; [exact F|]. apply extractor_request_not_bq.
  - apply Forall_cons in F as [_ F]. by apply extractor_request_no_log.
Qed.

Lemma extractor_only_requests_witness :
  exists r s',
    fetch_tasks world_bad_lists (PyStr "W1") s_init = (r, s') /\
    tasks_rows s' = tasks_rows s_init.
Proof.
  exists (fetch_tasks world_bad_lists (PyStr "W1") s_init).1,
         (fetch_tasks world_bad_lists (PyStr "W1") s_init).2.
  assert (H : fetch_tasks world_bad_lists (PyStr "W1") s_init
              = ((fetch_tasks world_bad_lists (PyStr "W1") s_init).1,
                 (fetch_tasks world_bad_lists (PyStr "W1") s_init).2))
    by (vm_compute; reflexivity).
  split; [exact H|].
  destruct (extractor_only_requests _ _ _ _ _ H) as (rest & _ & _ & _ & _ & R).
  exact R.
Defined.

(** ** The shape of a run *)

(** The schema-build step, whatever its result: the request for the
    definitions, then at most the create-table call. *)
Lemma create_tables_run (w : world) s r s' :
  create_tables_if_not_exist w s = (r, s') ->
  let first := EvHttp (custom_fields_url w (self_workspace_id w))
                 (http_get w (events s) (custom_fields_url w (self_workspace_id w))) in
  (events s' = events s ++ [first] /\ tasks_rows s' = tasks_rows s /\
   exists e, r = Err e) \/
  (exists schema f,
     events s' = events s ++
       [first; EvBq (CreateTable "clickup_data" "tasks" schema true) f] /\
     match f with
     | Some e => r = Err e /\ tasks_rows s' = tasks_rows s
     | None => r = Ok () /\ tasks_rows s' = Some (default [] (tasks_rows s))
     end).
Proof.
  intros H first. subst first. unfold custom_fields_url, self_workspace_id.
  unfold create_tables_if_not_exist, fetch_custom_fields in H.
  apply mbind_inv in H as [(v & s1 & H1 & H)|(e & H1 & ->)].
  - apply mbind_Ok_inv in H1 as (resp & s0 & Hget & H1).
    apply get_json_inv in Hget as [Hr ->]. apply lift_inv in H1 as [Hv ->].
    apply mbind_inv in H as [(fields & s2 & H2 & H)|(e & H2 & ->)].
    + apply lift_inv in H2 as [Hf ->].
      apply mbind_inv in H as [(schema & s3 & H3 & H)|(e & H3 & ->)].
      * apply lift_inv in H3 as [Hs ->]. right.
        unfold create_table, bq_call in H. cbn [record events tasks_rows] in H.
        exists schema. destruct (bq_error w _ _) as [e|];
          inversion H; subst; clear H.
        -- exists (Some e). simpl. rewrite <- app_assoc. simpl. by rewrite Hr.
        -- exists None. simpl. rewrite <- app_assoc. simpl. by rewrite Hr.
      * apply lift_inv in H3 as [Hs ->]. left. simpl. rewrite Hr. eauto.
    + apply lift_inv in H2 as [Hf ->]. left. simpl. rewrite Hr. eauto.
  - apply mbind_inv in H1 as [(resp & s0 & Hget & H1)|(e' & Hget & He)].
    + apply get_json_inv in Hget as [Hr ->]. apply lift_inv in H1 as [Hv ->].
      left. simpl. rewrite Hr. eauto.
    + apply get_json_inv in Hget as [Hr ->]. left. simpl. rewrite Hr. eauto.
Qed.

Lemma load_tasks_run (w : world) tasks s r s' :
  load_tasks w tasks s = (r, s') ->
  exists evs,
    events s' = events s ++ evs /\ Forall body_event evs /\
    (forall e, r = Err e -> tasks_rows s' = tasks_rows s).
Proof.
  destruct tasks as [|t tasks]; intros H.
  - inversion H; subst. exists []. rewrite app_nil_r. by repeat split.
  - rewrite load_tasks_calls in H.
    destruct (bq_error w (events s) _) as [e|].
    { inversion H; subst. eexists [_]. split; [done|]. split; [by repeat constructor|done]. }
    cbn [record events] in H.
    destruct (bq_error w (events s ++ _) _) as [e|].
    { inversion H; subst. eexists [_; _]. simpl. rewrite <- app_assoc.
      split; [done|]. split; [by repeat constructor|done]. }
    inversion H; subst. eexists [_; _; _]. simpl. rewrite <- !app_assoc.
    split; [done|]. split; [|done].
    repeat constructor. eexists. reflexivity.
Qed.

Lemma extractor_request_body e : extractor_request e -> body_event e.
Proof. by intros (path & r & -> & _). Qed.

(** A run from its first line to its last. *)
Lemma sync_data_shape (w : world) s r s' :
  sync_data w s = (r, s') ->
  exists evs,
    events s' = events s ++
      [EvLog INFO "Starting ClickUp to BigQuery sync";
       EvHttp (custom_fields_url w (self_workspace_id w))
         (http_get w (events (started s)) (custom_fields_url w (self_workspace_id w)))]
      ++ evs ++
      [match r with
       | Ok _ => EvLog INFO "Sync completed successfully"
       | Err e => EvLog ERROR ("Error during sync: " +:+ str_exn w e)
       end] /\
    Forall body_event evs.
Proof.
  rewrite sync_data_stages.
  destruct (create_tables_if_not_exist w (started s)) as [rc s1] eqn:Hc.
  pose proof (create_tables_run w _ _ _ Hc) as Hrun. simpl in Hrun.
  destruct Hrun as [(E1 & _ & e & ->)|(schema & f & E1 & Hf)].
  { inversion 1; subst. exists []. simpl. rewrite E1. simpl.
    rewrite <- !app_assoc. by split. }
  destruct f as [e|]; destruct Hf as [-> _].
  { inversion 1; subst. eexists [_]. simpl. rewrite E1. simpl.
    rewrite <- !app_assoc. split; [done|]. by repeat constructor. }
  destruct (fetch_tasks w (self_workspace_id w) s1) as [[tasks|e] s2] eqn:Hf.
  - apply fetch_tasks_run in Hf as (evs2 & E2 & F2 & _ & _).
    destruct (load_tasks w tasks s2) as [rl s3] eqn:Hl.
    apply load_tasks_run in Hl as (evs3 & E3 & F3 & _).
    assert (HF : Forall body_event
              (EvBq (CreateTable "clickup_data" "tasks" schema true) None
               :: evs2 ++ evs3)).
    { constructor; [done|]. apply Forall_app. split; [|done].
      eapply Forall_impl; [exact F2|]. apply extractor_request_body. }
    destruct rl as [[]|e]; inversion 1; subst; eexists; (split; [|exact HF]);
      simpl; rewrite E3, E2, E1; simpl; by rewrite <- !app_assoc.
  - apply fetch_tasks_run in Hf as (evs2 & E2 & F2 & _ & _).
    inversion 1; subst.
    exists (EvBq (CreateTable "clickup_data" "tasks" schema true) None :: evs2).
    split.
    + simpl. rewrite E2, E1. simpl. by rewrite <- !app_assoc.
    + constructor; [done|]. eapply Forall_impl; [exact F2|]. apply extractor_request_body.
Qed.

(** X9.  Every run, whatever the outside does, starts with the start line
    followed by the request for the custom-field definitions, and ends with
    exactly one closing line: the completion line if it returns, the line
    "Error during sync: <e>" if it raises [e].  Between them there are only
    requests, warehouse calls and at most count lines: no error line and no
    completion line. *)
Theorem run_opens_and_closes_once (w : world) s r s' :
  sync_data w s = (r, s') ->
  exists evs,
    events s' = events s ++
      [EvLog INFO "Starting ClickUp to BigQuery sync";
       EvHttp (custom_fields_url w (self_workspace_id w))
         (http_get w (events (started s)) (custom_fields_url w (self_workspace_id w)))]
      ++ evs ++
      [match r with
       | Ok _ => EvLog INFO "Sync completed successfully"
       | Err e => EvLog ERROR ("Error during sync: " +:+ str_exn w e)
       end] /\
    Forall body_event evs /\
    (forall msg, EvLog ERROR msg ∉ evs) /\
    (EvLog INFO "Sync completed successfully" ∉ evs) /\
    (EvLog INFO "Starting ClickUp to BigQuery sync" ∉ evs).
Proof.
  intros H. apply sync_data_shape in H as (evs & E & F).
  exists evs. split; [done|]. split; [done|].
  rewrite Forall_forall in F. split; [|split].
  - intros msg Hin. by destruct (F _ Hin) as [? _].
  - intros Hin. destruct (F _ Hin) as [_ (n & Hn)]. inversion Hn.
  - intros Hin. destruct (F _ Hin) as [_ (n & Hn)]. inversion Hn.
Qed.

Lemma run_opens_and_closes_once_witness :
  exists s',
    sync_data world_job_fails s_init
      = (Err (Raised "400 Provided Schema does not match"), s') /\
    exists evs,
      events s' = events s_init ++
        [EvLog INFO "Starting ClickUp to BigQuery sync";
         EvHttp (custom_fields_url world_job_fails (self_workspace_id world_job_fails))
           (http_get world_job_fails (events (started s_init))
              (custom_fields_url world_job_fails (self_workspace_id world_job_fails)))]
        ++ evs ++
        [EvLog ERROR "Error during sync: 400 Provided Schema does not match"].
Proof.
  eexists. split; [vm_compute; reflexivity|].
  destruct (run_opens_and_closes_once world_job_fails s_init _ _ eq_refl)
    as (evs & E & _).
  exists evs. exact E.
Defined.

(** X10.  When the schema-build step raises, the run stops there: after
    the start line there is the request for the definitions, at most the
    create-table call that raised, and the error line; nothing is asked of
    the extractor's endpoints, nothing is loaded, and the rows of the table
    are as before the run. *)
Theorem schema_failure_stops_run (w : world) s e s1 :
  create_tables_if_not_exist w (started s) = (Err e, s1) ->
  let first := EvHttp (custom_fields_url w (self_workspace_id w))
                 (http_get w (events (started s))
                    (custom_fields_url w (self_workspace_id w))) in
  let start := EvLog INFO "Starting ClickUp to BigQuery sync" in
  let last := EvLog ERROR ("Error during sync: " +:+ str_exn w e) in
  sync_data w s = (Err e, failed w e s1) /\
  tasks_rows (failed w e s1) = tasks_rows s /\
  (events (failed w e s1) = events s ++ [start; first; last] \/
   exists schema,
     events (failed w e s1) = events s ++
       [start; first;
        EvBq (CreateTable "clickup_data" "tasks" schema true) (Some e); last]).
Proof.
  intros Hc first start last. subst first start last.
  split; [by rewrite sync_data_stages, Hc|].
  apply create_tables_run in Hc. simpl in Hc.
  destruct Hc as [(E1 & R1 & _)|(schema & f & E1 & Hf)].
  - split; [done|]. left. simpl. rewrite E1. simpl. by rewrite <- !app_assoc.
  - destruct f as [e'|]; [|by destruct Hf].
    destruct Hf as [He R1]. inversion He; subst e'.
    split; [done|]. right. exists schema. simpl. rewrite E1. simpl.
    by rewrite <- !app_assoc.
Qed.

Lemma schema_failure_stops_run_witness :
  exists s1,
    create_tables_if_not_exist world_create_fails (started s_init)
      = (Err (Raised "403 Access Denied"), s1) /\
    sync_data world_create_fails s_init
      = (Err (Raised "403 Access Denied"),
         failed world_create_fails (Raised "403 Access Denied") s1) /\
    tasks_rows (failed world_create_fails (Raised "403 Access Denied") s1) = None.
Proof.
  eexists. split; [vm_compute; reflexivity|].
  destruct (schema_failure_stops_run world_create_fails s_init _ _ eq_refl)
    as (Hs & Hr & _).
  split; [exact Hs | exact Hr].
Defined.

(** X11.  A run that raises never saw a load job complete: none of its
    events is a wait on a load job that returned.  (The two lines that
    follow [job.result()] cannot raise, so a run whose load was confirmed
    returns.) *)
Theorem failed_run_confirmed_no_load (w : world) s e s' :
  sync_data w s = (Err e, s') ->
  exists evs,
    events s' = events s ++ evs /\
    Forall (fun ev => forall job, ev <> EvBq (JobResult job) None) evs.
Proof.
  intros H. rewrite sync_data_stages in H.
  destruct (create_tables_if_not_exist w (started s)) as [rc s1] eqn:Hc.
  apply create_tables_run in Hc. simpl in Hc.
  destruct Hc as [(E1 & _ & e1 & ->)|(schema & f & E1 & Hf)].
  { inversion H; subst. eexists. split.
    - simpl. rewrite E1. simpl. rewrite <- !app_assoc. reflexivity.
    - by repeat constructor. }
  destruct f as [e1|]; destruct Hf as [-> _].
  { inversion H; subst. eexists. split.
    - simpl. rewrite E1. simpl. rewrite <- !app_assoc. reflexivity.
    - by repeat constructor. }
  assert (Hreq : forall evs, Forall extractor_request evs ->
            Forall (fun ev => forall job, ev <> EvBq (JobResult job) None) evs).
  { intros evs Hevs. eapply Forall_impl; [exact Hevs|].
    by intros ev (path & r & -> & _) job. }
  destruct (fetch_tasks w (self_workspace_id w) s1) as [[tasks|e2] s2] eqn:Hf.
  - apply fetch_tasks_run in Hf as (evs2 & E2 & F2 & _ & _).
    destruct tasks as [|t tasks]; [discriminate|].
    rewrite load_tasks_calls in H.
    destruct (bq_error w (events s2) _) as [e3|].
    { inversion H; subst. eexists. split.
      - simpl. rewrite E2, E1. simpl. rewrite <- !app_assoc. reflexivity.
      - do 3 (constructor; [done|]). apply Forall_app. split; [by apply Hreq|].
        by repeat constructor. }
    cbn [record events] in H.
    destruct (bq_error w (events s2 ++ _) _) as [e3|]; [|discriminate].
    inversion H; subst. eexists. split.
    + simpl. rewrite E2, E1. simpl. rewrite <- !app_assoc. reflexivity.
    + do 3 (constructor; [done|]). apply Forall_app. split; [by apply Hreq|].
      by repeat constructor.
  - apply fetch_tasks_run in Hf as (evs2 & E2 & F2 & _ & _).
    inversion H; subst. eexists. split.
    + simpl. rewrite E2, E1. simpl. rewrite <- !app_assoc. reflexivity.
    + do 3 (constructor; [done|]). apply Forall_app. split; [by apply Hreq|].
      by repeat constructor.
Qed.

Lemma failed_run_confirmed_no_load_witness :
  exists s',
    sync_data world_job_fails s_init
      = (Err (Raised "400 Provided Schema does not match"), s') /\
    exists evs, events s' = events s_init ++ evs /\
      Forall (fun ev => forall job, ev <> EvBq (JobResult job) None) evs.
Proof.
  eexists. split; [vm_compute; reflexivity|].
  exact (failed_run_confirmed_no_load world_job_fails s_init _ _ eq_refl).
Defined.

(** ** Construction *)

(** X12.  [__init__] checks nothing: it raises only what the creation of
    the BigQuery client raises, and otherwise returns an object whose token
    and workspace id are what the environment holds, [None] for a variable
    that is not set, with exactly the two headers ['Authorization'] (the
    token, possibly [None]) and ['Content-Type'].  A sync on an object made
    without [CLICKUP_WORKSPACE_ID] then asks for the definitions of the
    workspace named "None". *)
Theorem init_checks_nothing (environ : gmap string string) :
  (forall e, init environ (Some e) = Err e) /\
  exists cfg,
    init environ None = Ok cfg /\
    cfg_api_token cfg = environ !! "CLICKUP_API_TOKEN" /\
    cfg_workspace_id cfg = environ !! "CLICKUP_WORKSPACE_ID" /\
    cfg_base_url cfg = base_url /\
    cfg_headers cfg !! "Authorization"
      = Some (env_value (environ !! "CLICKUP_API_TOKEN")) /\
    cfg_headers cfg !! "Content-Type" = Some (PyStr "application/json") /\
    (forall k, is_Some (cfg_headers cfg !! k) ->
               k = "Authorization" \/ k = "Content-Type") /\
    (environ !! "CLICKUP_WORKSPACE_ID" = None ->
     forall repr strx http bq s r s',
       sync_data (world_of cfg repr strx http bq) s = (r, s') ->
       exists r0 rest,
         events s' = events s ++
           EvLog INFO "Starting ClickUp to BigQuery sync"
           :: EvHttp "https://api.clickup.com/api/v2/workspace/None/custom_fields" r0
           :: rest).
Proof.
  split; [done|]. eexists. split; [reflexivity|]. simpl.
  split; [done|]. split; [done|]. split; [done|].
  split; [by rewrite lookup_insert_eq|].
  split; [by rewrite lookup_insert_ne, lookup_insert_eq|].
  split.
  - intros k [x Hk].
    destruct (decide (k = "Authorization")) as [->|H1]; [by left|].
    rewrite lookup_insert_ne in Hk by done.
    destruct (decide (k = "Content-Type")) as [->|H2]; [by right|].
    by rewrite lookup_insert_ne in Hk.
  - intros Hws repr strx http bq s r s' H.
    apply sync_data_shape in H as (evs & E & _).
    unfold custom_fields_url, self_workspace_id, world_of in E. simpl in E.
    rewrite Hws in E. simpl in E. eauto.
Qed.

(** ** The extractor as a whole *)

Lemma fetch_spaces_passes (w : world) spaces tasks s tasks' s' :
  mfold (fetch_space_tasks w) tasks spaces s = (Ok tasks', s') ->
  exists passes,
    Forall2 (space_pass w) spaces passes /\
    events s' = events s ++ concat passes.*1 /\
    tasks' = tasks ++ concat passes.*2.
Proof.
  revert tasks s. induction spaces as [|space spaces IH]; simpl; intros tasks s H.
  - inversion H; subst. exists []. simpl. by rewrite !app_nil_r.
  - apply mbind_Ok_inv in H as (tasks1 & s1 & H1 & H).
    apply fetch_space_tasks_passes in H1
      as (sid & resp & v & lists & lpasses & Hsid & _ & Hv & Hl & Hp & E1 & ->).
    apply IH in H as (passes & Hpasses & E & ->).
    exists ((EvHttp (lists_url w sid) (Ok resp) :: lpasses.*1, concat lpasses.*2)
            :: passes).
    split; [|split].
    + constructor; [|done]. by exists sid, resp, v, lists, lpasses.
    + rewrite E, E1. simpl. by rewrite <- app_assoc.
    + simpl. by rewrite app_assoc.
Qed.

(** X13.  A successful extraction is the spaces request followed, space
    after space in the order of the answer, by the pass over that space;
    the result holds the records of these passes in that order and nothing
    else.  So the extractor makes one request for the spaces, one per
    space and one per list, and returns one record per listed task. *)
Theorem extraction_is_nested_passes (w : world) (wid : pyval) s tasks s' :
  fetch_tasks w wid s = (Ok tasks, s') ->
  exists resp v spaces passes,
    http_get w (events s) (spaces_url w wid) = Ok resp /\
    py_get resp "spaces" (PyList []) = Ok v /\
    py_iter v = Ok spaces /\
    Forall2 (space_pass w) spaces passes /\
    events s' = events s ++ EvHttp (spaces_url w wid) (Ok resp) :: concat passes.*1 /\
    tasks = concat passes.*2.
Proof.
  unfold fetch_tasks. intros H.
  apply mbind_Ok_inv in H as (resp & s1 & H1 & H). apply get_json_inv in H1 as [Hr ->].
  apply mbind_Ok_inv in H as (v & s2 & H2 & H). apply lift_inv in H2 as [Hv ->].
  apply mbind_Ok_inv in H as (spaces & s3 & H3 & H). apply lift_inv in H3 as [Hspaces ->].
  apply fetch_spaces_passes in H as (passes & Hpasses & E & ->).
  exists resp, v, spaces, passes.
  split; [done|]. split; [done|]. split; [done|]. split; [done|]. split; [|done].
  rewrite E. simpl. rewrite <- app_assoc. simpl. by rewrite Hr.
Qed.

Lemma extraction_is_nested_passes_witness :
  exists s',
    fetch_tasks world_two_tasks (PyStr "W1") s_init = (Ok [row_T1; row_T2], s') /\
    exists passes : list (list event * list pyval),
      length passes = 1 /\ [row_T1; row_T2] = concat passes.*2.
Proof.
  eexists. split; [vm_compute; reflexivity|].
  destruct (extraction_is_nested_passes world_two_tasks (PyStr "W1") s_init
              [row_T1; row_T2] _ eq_refl)
    as (resp & v & spaces & passes & Hr & Hv & Hsp & Hp & _ & Ht).
  vm_compute in Hr. inversion Hr; subst resp; clear Hr.
  vm_compute in Hv. inversion Hv; subst v; clear Hv.
  vm_compute in Hsp. inversion Hsp; subst spaces; clear Hsp.
  exists passes. split; [|exact Ht].
  by rewrite <- (Forall2_length _ _ _ Hp).
Defined.

Lemma init_checks_nothing_witness :
  exists cfg,
    init (<["CLICKUP_API_TOKEN" := "pk_1"]> ∅) None = Ok cfg /\
    cfg_workspace_id cfg = None /\
    cfg_headers cfg !! "Authorization" = Some (PyStr "pk_1").
Proof.
  destruct (init_checks_nothing (<["CLICKUP_API_TOKEN" := "pk_1"]> ∅))
    as (_ & cfg & Hi & _ & Hw & _ & Ha & _).
  exists cfg. split; [exact Hi|]. split; [exact Hw | exact Ha].
Defined.
